(** * Linear integration module: fault deduplication and webhook verification

    A shallow embedding of [faults/manager.ts] (class [FaultManager]),
    [webhooks/handler.ts] (class [LinearWebhookHandler]) and
    [webhooks/middleware.ts] ([createWebhookMiddleware]).

    Conventions of the embedding.
    - JavaScript strings are [string]s.  Numbers that the code uses as
      integers (epoch milliseconds, occurrence counts, priority levels, the
      deduplication window) are [Z]; [NaN], infinities and fractions are not
      represented.
    - A method of an object [T] that may read the clock, log, call the tracker
      and throw is a function [T * World -> Outcome A * (T * World)]
      (type [Js T A]).  A thrown value leaves the state as it was at the throw.
    - An [async] method is run from its call to its settlement without another
      call interleaving at its [await]s: calls are sequential, as in the test
      suite, where every [report] is awaited before the next.
    - What the code takes from the JavaScript runtime and from Node's [crypto]
      is the interface [Platform].  The tracker SDK, the clock and the logger
      live in [World]; the logger's methods append a line and return. *)

From Stdlib Require Import ZArith String Ascii List Lia Bool.
From stdpp Require Import base option gmap strings pretty.

Local Open Scope Z_scope.
Local Open Scope string_scope.

(** ** The runtime the code relies on *)

(** [WebhookPayload] of [types.ts]; [Obj] is the type of
    [Record<string, unknown>] values. *)
Record WebhookPayload (Obj : Type) := {
  action : string;
  type : string;
  data : Obj;
  createdAt : string;
  organizationId : string;
  webhookId : string;
  webhookTimestamp : Z
}.
Arguments action {Obj} _.
Arguments type {Obj} _.
Arguments data {Obj} _.
Arguments createdAt {Obj} _.
Arguments organizationId {Obj} _.
Arguments webhookId {Obj} _.
Arguments webhookTimestamp {Obj} _.

(** Library functions the sources call, kept abstract.
    - [objectKeys o] is [Object.keys(o)], [jsonStringify o] is
      [JSON.stringify(o, null, 2)], [payloadToJson p] is [JSON.stringify(p)];
    - [md5Hex s] is [crypto.createHash('md5').update(s).digest('hex')];
    - [hmacSha256Hex key s] is
      [crypto.createHmac('sha256', key).update(s).digest('hex')], always 64
      hexadecimal digits;
    - [bufferFrom s] is [Buffer.from(s)], the bytes of the UTF-8 encoding of
      [s]; a hexadecimal digit is one byte, so the digest above has 64 bytes,
      which the law [bufferFrom_hmac] records;
    - [toISOString t] is [new Date(t).toISOString()];
    - [dateParse s] is the time value of [new Date(s)], [None] for an
      invalid date. *)
Class Platform := {
  JsObject : Type;
  objectKeys : JsObject -> list string;
  jsonStringify : JsObject -> string;
  payloadToJson : WebhookPayload JsObject -> string;
  md5Hex : string -> string;
  hmacSha256Hex : string -> string -> string;
  bufferFrom : string -> list Byte.byte;
  bufferFrom_hmac : forall key s, length (bufferFrom (hmacSha256Hex key s)) = 64%nat;
  toISOString : Z -> string;
  dateParse : string -> option Z
}.

(** ** Thrown values and outcomes *)

(** A thrown value: an instance of [Error] (or of a subclass, [errName] being
    its [name]), or any other value, given by its string conversion. *)
Inductive Thrown :=
| ErrorObject (errName errMessage : string)
| OtherValue (text : string).

(** [error instanceof Error] *)
Definition instanceofError (e : Thrown) : bool :=
  match e with ErrorObject _ _ => true | OtherValue _ => false end.

(** [error.message], for an [Error] *)
Definition message_of (e : Thrown) : option string :=
  match e with ErrorObject _ m => Some m | OtherValue _ => None end.

(** [`${e}`]: [Error.prototype.toString] for an error object. *)
Definition thrownToString (e : Thrown) : string :=
  match e with
  | ErrorObject n m =>
      if String.eqb n "" then m
      else if String.eqb m "" then n
      else n +:+ ": " +:+ m
  | OtherValue t => t
  end.

(** [new Error(msg)] *)
Definition newError (msg : string) : Thrown := ErrorObject "Error" msg.

Inductive Outcome (A : Type) :=
| Returned (a : A)
| Threw (e : Thrown).
Arguments Returned {A} a.
Arguments Threw {A} e.

(** ** The world outside the process *)

Inductive LogLevel := Debug | Info | Warn | Error.

(** [IssueCreateInput] of [types.ts], with the fields [report] fills. *)
Record IssueCreateInput := {
  title : string;
  description : string;
  inputTeamId : string;
  priority : Z;
  inputLabelIds : option (list string)
}.

Record CommentCreateInput := {
  commentIssueId : string;
  body : string
}.

(** The created issue, as far as the code reads it. *)
Record Issue := {
  id : string;
  identifier : string;
  url : string
}.

(** What [createIssue] resolves to: a payload whose [issue] is itself a
    promise, settled to an issue, to [undefined], or rejected. *)
Record IssuePayload := {
  issue : Thrown + option Issue
}.

(** The world: the clock ([clock w n] is the value of [getTime()] of the
    [n]-th [new Date()] of the run, [ticks w] counts the readings made), the
    tracker (the [n]-th call of [createIssue] settles as [issueReplies w n],
    and likewise for comments; the requests sent are recorded, oldest first),
    and the lines written to the logger and to the console, oldest first. *)
Record World := {
  clock : nat -> Z;
  ticks : nat;
  issueReplies : nat -> Thrown + IssuePayload;
  commentReplies : nat -> Thrown + unit;
  issueRequests : list IssueCreateInput;
  commentRequests : list CommentCreateInput;
  logged : list (LogLevel * string)
}.

Definition tick (w : World) : World :=
  {| clock := clock w; ticks := S (ticks w);
     issueReplies := issueReplies w; commentReplies := commentReplies w;
     issueRequests := issueRequests w; commentRequests := commentRequests w;
     logged := logged w |}.

Definition sendIssue (i : IssueCreateInput) (w : World) : World :=
  {| clock := clock w; ticks := ticks w;
     issueReplies := issueReplies w; commentReplies := commentReplies w;
     issueRequests := issueRequests w ++ [i]; commentRequests := commentRequests w;
     logged := logged w |}.

Definition sendComment (c : CommentCreateInput) (w : World) : World :=
  {| clock := clock w; ticks := ticks w;
     issueReplies := issueReplies w; commentReplies := commentReplies w;
     issueRequests := issueRequests w; commentRequests := commentRequests w ++ [c];
     logged := logged w |}.

Definition writeLog (l : LogLevel) (msg : string) (w : World) : World :=
  {| clock := clock w; ticks := ticks w;
     issueReplies := issueReplies w; commentReplies := commentReplies w;
     issueRequests := issueRequests w; commentRequests := commentRequests w;
     logged := logged w ++ [(l, msg)] |}.

(** The time the next [new Date()] will show. *)
Definition nextTime (w : World) : Z := clock w (ticks w).

(** The settlement of the next [createIssue] and [createComment]. *)
Definition nextIssueReply (w : World) : Thrown + IssuePayload :=
  issueReplies w (length (issueRequests w)).
Definition nextCommentReply (w : World) : Thrown + unit :=
  commentReplies w (length (commentRequests w)).

(** ** Computations of a method of an object of type [T] *)

Definition Js (T A : Type) : Type := T * World -> Outcome A * (T * World).

Definition ret {T A} (a : A) : Js T A := fun s => (Returned a, s).

Definition throw {T A} (e : Thrown) : Js T A := fun s => (Threw e, s).

Definition bind {T A B} (c : Js T A) (k : A -> Js T B) : Js T B :=
  fun s =>
    match c s with
    | (Returned a, s') => k a s'
    | (Threw e, s') => (Threw e, s')
    end.

(** [try { c } catch (e) { h e }] *)
Definition tryCatch {T A} (c : Js T A) (h : Thrown -> Js T A) : Js T A :=
  fun s =>
    match c s with
    | (Returned a, s') => (Returned a, s')
    | (Threw e, s') => h e s'
    end.

Declare Scope js_scope.
Delimit Scope js_scope with js.
Notation "x <- c ;; k" := (bind c (fun x => k))
  (at level 100, c at next level, right associativity) : js_scope.
Notation "c ;; k" := (bind c (fun _ => k))
  (at level 100, right associativity) : js_scope.
Local Open Scope js_scope.

(** [this] *)
Definition getThis {T} : Js T T := fun s => (Returned (fst s), s).
Definition setThis {T} (o : T) : Js T unit := fun s => (Returned tt, (o, snd s)).

(** [new Date().getTime()] *)
Definition newDate {T} : Js T Z :=
  fun s => (Returned (nextTime (snd s)), (fst s, tick (snd s))).

(** [this.logger.<level>(msg)] and [console.<level>(msg)] *)
Definition logger {T} (l : LogLevel) (msg : string) : Js T unit :=
  fun s => (Returned tt, (fst s, writeLog l msg (snd s))).

(** [await this.client.createComment(input)] *)
Definition createComment {T} (input : CommentCreateInput) : Js T unit :=
  fun s =>
    let w := snd s in
    match nextCommentReply w with
    | inr _ => (Returned tt, (fst s, sendComment input w))
    | inl e => (Threw e, (fst s, sendComment input w))
    end.

(** [await this.client.createIssue(input)] *)
Definition createIssue {T} (input : IssueCreateInput) : Js T IssuePayload :=
  fun s =>
    let w := snd s in
    match nextIssueReply w with
    | inr p => (Returned p, (fst s, sendIssue input w))
    | inl e => (Threw e, (fst s, sendIssue input w))
    end.

(** [await payload.issue] *)
Definition awaitIssue {T} (p : IssuePayload) : Js T (option Issue) :=
  match issue p with
  | inr i => ret i
  | inl e => throw e
  end.

(** ** JavaScript idioms *)

(** [s || d] for an optional string: [undefined] and [''] are falsy. *)
Definition orString (s : option string) (d : string) : string :=
  match s with
  | Some v => if String.eqb v "" then d else v
  | None => d
  end.

(** [n || d] for an optional number: [undefined] and [0] are falsy. *)
Definition orNumber (n : option Z) (d : Z) : Z :=
  match n with
  | Some v => if Z.eqb v 0 then d else v
  | None => d
  end.

(** [b ?? d] *)
Definition nullish {A} (b : option A) (d : A) : A :=
  match b with Some v => v | None => d end.

(** [if (s)] for an optional string *)
Definition truthyString (s : option string) : option string :=
  match s with
  | Some v => if String.eqb v "" then None else Some v
  | None => None
  end.

Definition newline : string := String "010"%char EmptyString.

(** [s.split('\n')[0]]: the characters before the first line feed. *)
Fixpoint firstLine (s : string) : string :=
  match s with
  | EmptyString => EmptyString
  | String c rest =>
      if Ascii.eqb c "010"%char then EmptyString else String c (firstLine rest)
  end.

Definition upperChar (c : ascii) : ascii :=
  let n := nat_of_ascii c in
  if ((97 <=? n)%nat && (n <=? 122)%nat)%bool then ascii_of_nat (n - 32) else c.

(** [s.toUpperCase()], on the letters a-z *)
Fixpoint toUpperCase (s : string) : string :=
  match s with
  | EmptyString => EmptyString
  | String c rest => String (upperChar c) (toUpperCase rest)
  end.

(** [s.slice(0, n)] *)
Definition slice0 (n : nat) (s : string) : string := String.substring 0 n s.

(** [lines.join('\n')] *)
Definition joinLines (lines : list string) : string := String.concat newline lines.

(** ** faults/manager.ts *)

Section Faults.
Context {Pf : Platform}.

(** [FaultConfig], as the caller passes it (the logger is part of [World]). *)
Record FaultConfig := {
  accessToken : string;
  teamId : string;
  labelIds : option (list string);
  defaultPriority : option Z;
  appName : option string;
  environment : option string;
  deduplicate : option bool;
  dedupeWindow : option Z
}.

(** [this.config], after the constructor has filled the defaults. *)
Record Config := {
  cfgTeamId : string;
  cfgLabelIds : option (list string);
  cfgDefaultPriority : Z;
  cfgAppName : string;
  cfgEnvironment : string;
  cfgDeduplicate : bool;
  cfgDedupeWindow : Z
}.

Record FaultReport := {
  message : string;
  stack : option string;
  context : option JsObject;
  severity : option string;
  userId : option string;
  reportUrl : option string;
  metadata : option JsObject
}.

Record FaultRecord := {
  hash : string;
  issueId : string;
  count : Z;
  lastSeen : Z
}.

Record FaultManager := {
  config : Config;
  faultCache : gmap string FaultRecord
}.

(** The value [report] resolves to. *)
Record ReportResult := {
  resIssueId : string;
  resIdentifier : string;
  resUrl : string;
  isDuplicate : bool
}.

(** [constructor(config)] *)
Definition newFaultManager (c : FaultConfig) : FaultManager :=
  {| config :=
       {| cfgTeamId := teamId c;
          cfgLabelIds := labelIds c;
          cfgDefaultPriority := orNumber (defaultPriority c) 2;
          cfgAppName := orString (appName c) "Application";
          cfgEnvironment := orString (environment c) "production";
          cfgDeduplicate := nullish (deduplicate c) true;
          cfgDedupeWindow := orNumber (dedupeWindow c) 3600000 |};
     faultCache := ∅ |}.

(** The manager [m] with the cache [c]. *)
Definition withCache (m : FaultManager) (c : gmap string FaultRecord) : FaultManager :=
  {| config := config m; faultCache := c |}.

(** A mutation of [this.faultCache] ([set], [delete], [clear]). *)
Definition updateCache (f : gmap string FaultRecord -> gmap string FaultRecord)
  : Js FaultManager unit :=
  this <- getThis ;;
  setThis (withCache this (f (faultCache this))).

(** [report.stack?.split('\n')[0] || ''] *)
Definition stackHead (r : FaultReport) : string :=
  match stack r with
  | Some s => firstLine s
  | None => ""
  end.

(** [generateFaultHash(report)] *)
Definition generateFaultHash (r : FaultReport) : string :=
  let content := message r +:+ ":" +:+ stackHead r in
  md5Hex content.

(** [checkDuplicate(hash)] *)
Definition checkDuplicate (h : string) : Js FaultManager (option FaultRecord) :=
  this <- getThis ;;
  match faultCache this !! h with
  | None => ret None
  | Some record =>
      now <- newDate ;;
      let elapsed := now - lastSeen record in
      if elapsed >? cfgDedupeWindow (config this) then
        updateCache (delete h) ;;
        ret None
      else ret (Some record)
  end.

(** [formatDescription(report)] *)
Definition formatDescription (r : FaultReport) : Js FaultManager string :=
  this <- getThis ;;
  now <- newDate ;;
  let header :=
    [ "## Error Details";
      "**Message:** " +:+ message r;
      "**Severity:** " +:+ orString (severity r) "error";
      "**Environment:** " +:+ cfgEnvironment (config this);
      "**Timestamp:** " +:+ toISOString now ] in
  let urlLine :=
    match truthyString (reportUrl r) with
    | Some u => [ "**URL:** " +:+ u ]
    | None => []
    end in
  let userLine :=
    match truthyString (userId r) with
    | Some u => [ "**User ID:** " +:+ u ]
    | None => []
    end in
  let stackLines :=
    match truthyString (stack r) with
    | Some s => [ newline +:+ "## Stack Trace"; "```"; s; "```" ]
    | None => []
    end in
  let contextLines :=
    match context r with
    | Some c =>
        if (0 <? length (objectKeys c))%nat
        then [ newline +:+ "## Context"; "```json"; jsonStringify c; "```" ]
        else []
    | None => []
    end in
  let metadataLines :=
    match metadata r with
    | Some m =>
        if (0 <? length (objectKeys m))%nat
        then [ newline +:+ "## Metadata"; "```json"; jsonStringify m; "```" ]
        else []
    | None => []
    end in
  let sections :=
    List.concat [header; urlLine; userLine; stackLines; contextLines; metadataLines] in
  ret (joinLines sections).

(** [getPriority(severity)], with [this.config] passed. *)
Definition getPriority (c : Config) (sev : option string) : Z :=
  match sev with
  | Some s =>
      if String.eqb s "critical" then 1
      else if String.eqb s "error" then 2
      else if String.eqb s "warning" then 3
      else cfgDefaultPriority c
  | None => cfgDefaultPriority c
  end.

(** The body of [if (existing) { ... }] in [report]: the duplicate path. *)
Definition reportDuplicate (h : string) (existing : FaultRecord)
  : Js FaultManager ReportResult :=
  let count' := count existing + 1 in
  seen <- newDate ;;
  let existing' :=
    {| hash := hash existing; issueId := issueId existing;
       count := count'; lastSeen := seen |} in
  updateCache (insert h existing') ;;
  logger Info ("Duplicate fault detected, count: " +:+ pretty count') ;;
  tryCatch
    (at_ <- newDate ;;
     createComment
       {| commentIssueId := issueId existing';
          body := "This error occurred again at " +:+ toISOString at_
                  +:+ ". Total occurrences: " +:+ pretty count' |})
    (fun e =>
       logger Warn ("Failed to add comment to existing issue: " +:+ thrownToString e)) ;;
  ret {| resIssueId := issueId existing';
         resIdentifier := "duplicate";
         resUrl := "https://linear.app/issue/" +:+ issueId existing';
         isDuplicate := true |}.

(** The rest of [report], from [// Create new issue] on: the fresh path. *)
Definition reportFresh (h : string) (r : FaultReport) : Js FaultManager ReportResult :=
  this <- getThis ;;
  let title :=
    "[" +:+ cfgAppName (config this) +:+ "] "
    +:+ orString (option_map toUpperCase (severity r)) "ERROR"
    +:+ ": " +:+ slice0 100 (message r) in
  description <- formatDescription r ;;
  let issueInput :=
    {| title := title;
       description := description;
       inputTeamId := cfgTeamId (config this);
       priority := getPriority (config this) (severity r);
       inputLabelIds := cfgLabelIds (config this) |} in
  tryCatch
    (payload <- createIssue issueInput ;;
     createdIssue <- awaitIssue payload ;;
     match createdIssue with
     | None => throw (newError "Issue creation returned no issue")
     | Some created =>
         seen <- newDate ;;
         updateCache
           (insert h {| hash := h; issueId := id created; count := 1; lastSeen := seen |}) ;;
         logger Info ("Created fault issue: " +:+ identifier created) ;;
         ret {| resIssueId := id created;
                resIdentifier := identifier created;
                resUrl := url created;
                isDuplicate := false |}
     end)
    (fun e =>
       logger Error ("Failed to create fault issue: " +:+ thrownToString e) ;;
       throw e).

(** The guard of [report]: [this.checkDuplicate(hash)] if
    [this.config.deduplicate], and no lookup at all otherwise. *)
Definition dedupCheck (h : string) : Js FaultManager (option FaultRecord) :=
  this <- getThis ;;
  if cfgDeduplicate (config this) then checkDuplicate h else ret None.

(** [report(report)] *)
Definition report (r : FaultReport) : Js FaultManager ReportResult :=
  let h := generateFaultHash r in
  existing <- dedupCheck h ;;
  match existing with
  | Some existing => reportDuplicate h existing
  | None => reportFresh h r
  end.

(** [clearCache()] *)
Definition clearCache : Js FaultManager unit := updateCache (fun _ => ∅).

(** Awaiting [report] on each report of a list in turn, collecting the
    results; the run stops at the first rejection. *)
Fixpoint reportAll (rs : list FaultReport) : Js FaultManager (list ReportResult) :=
  match rs with
  | [] => ret []
  | r :: rest =>
      res <- report r ;;
      more <- reportAll rest ;;
      ret (res :: more)
  end.

End Faults.

(** ** webhooks/handler.ts and webhooks/middleware.ts *)

#[local] Instance byte_eq_dec : EqDecision Byte.byte := Byte.byte_eq_dec.

(** The error of [crypto.timingSafeEqual] on buffers of different lengths. *)
Definition lengthMismatch : Thrown :=
  ErrorObject "RangeError" "Input buffers must have the same byte length".

(** [crypto.timingSafeEqual(a, b)]: a [RangeError] on buffers of different
    byte lengths, their equality otherwise. *)
Definition timingSafeEqual {T} (a b : list Byte.byte) : Js T bool :=
  if (length a =? length b)%nat then ret (bool_decide (a = b))
  else throw lengthMismatch.

Section Webhooks.
Context {Pf : Platform}.

Record WebhookConfig := {
  signingSecret : option string
}.

Record WebhookEvent := {
  evType : string;
  evAction : string;
  evData : JsObject;
  evTimestamp : option Z;
  evOrganizationId : string
}.

(** A registered callback: it may write to the world and may throw. *)
Definition WebhookEventHandler : Type := WebhookEvent -> World -> Outcome unit * World.

Record LinearWebhookHandler := {
  whConfig : WebhookConfig;
  handlers : gmap string (list WebhookEventHandler)
}.

(** [constructor(config)] *)
Definition newWebhookHandler (c : WebhookConfig) : LinearWebhookHandler :=
  {| whConfig := c; handlers := ∅ |}.

(** [verifySignature(payload, signature)] *)
Definition verifySignature (payload signature : string) : Js LinearWebhookHandler bool :=
  this <- getThis ;;
  match truthyString (signingSecret (whConfig this)) with
  | None =>
      logger Warn "No signing secret configured, skipping signature verification" ;;
      ret true
  | Some secret =>
      let expectedSignature := hmacSha256Hex secret payload in
      timingSafeEqual (bufferFrom signature) (bufferFrom expectedSignature)
  end.

(** [on(eventType, handler)] *)
Definition on (eventType : string) (h : WebhookEventHandler) : Js LinearWebhookHandler unit :=
  this <- getThis ;;
  let hs := default [] (handlers this !! eventType) in
  setThis {| whConfig := whConfig this;
             handlers := <[eventType := (hs ++ [h])%list]> (handlers this) |}.

(** [onAny(handler)] *)
Definition onAny (h : WebhookEventHandler) : Js LinearWebhookHandler unit := on "*" h.

(** [await handler(event)] *)
Definition callHandler (h : WebhookEventHandler) (event : WebhookEvent)
  : Js LinearWebhookHandler unit :=
  fun s => let (o, w) := h event (snd s) in (o, (fst s, w)).

(** [Promise.all(allHandlers.map(async (handler) => { try ... catch ... }))],
    the callbacks taken in the order of the array. *)
Fixpoint runHandlers (hs : list WebhookEventHandler) (event : WebhookEvent)
  : Js LinearWebhookHandler unit :=
  match hs with
  | [] => ret tt
  | h :: rest =>
      tryCatch (callHandler h event)
        (fun e => logger Error ("Webhook handler error: " +:+ thrownToString e)) ;;
      runHandlers rest event
  end.

(** [process(payload, signature)] *)
Definition process (payload : WebhookPayload JsObject) (signature : option string)
  : Js LinearWebhookHandler unit :=
  match truthyString signature with
  | Some sig =>
      valid <- verifySignature (payloadToJson payload) sig ;;
      if valid then ret tt else throw (newError "Invalid webhook signature")
  | None => ret tt
  end ;;
  let event :=
    {| evType := type payload;
       evAction := action payload;
       evData := data payload;
       evTimestamp := dateParse (createdAt payload);
       evOrganizationId := organizationId payload |} in
  logger Info ("Processing webhook: " +:+ evType event +:+ "." +:+ evAction event) ;;
  this <- getThis ;;
  let specificHandlers := default [] (handlers this !! evType event) in
  let actionHandlers :=
    default [] (handlers this !! (evType event +:+ "." +:+ evAction event)) in
  let wildcardHandlers := default [] (handlers this !! "*") in
  let allHandlers := (specificHandlers ++ actionHandlers ++ wildcardHandlers)%list in
  runHandlers allHandlers event.

(** The request, as far as the middleware reads it: the [linear-signature]
    header and the parsed body. *)
Record Request := {
  linearSignature : option string;
  reqBody : WebhookPayload JsObject
}.

(** The JSON documents the middleware answers with. *)
Inductive ResponseBody :=
| SuccessTrue
| ErrorBody (error : string).

Record Response := {
  status : Z;
  json : ResponseBody
}.

(** The handler that [createWebhookMiddleware({ handler })] returns, run on a
    request; [this] is the [handler] of the options. *)
Definition createWebhookMiddleware (req : Request) : Js LinearWebhookHandler Response :=
  tryCatch
    (let signature := linearSignature req in
     let payload := reqBody req in
     process payload signature ;;
     ret {| status := 200; json := SuccessTrue |})
    (fun error =>
       logger Error ("Webhook processing error: " +:+ thrownToString error) ;;
       if (instanceofError error
           && bool_decide (message_of error = Some "Invalid webhook signature"))%bool
       then ret {| status := 401; json := ErrorBody "Invalid signature" |}
       else ret {| status := 500; json := ErrorBody "Internal server error" |}).

End Webhooks.

(** ** How a creation request ends *)

(** The next [createIssue] resolves and its [issue] is [created]. *)
Definition CreationSucceeds (w : World) (created : Issue) : Prop :=
  nextIssueReply w = inr {| issue := inr (Some created) |}.

(** The next creation fails with [e]: [createIssue] rejects with [e], or the
    [issue] of its payload rejects with [e], or that [issue] is [undefined]
    and [e] is the error [report] throws itself. *)
Inductive CreationFails (w : World) : Thrown -> Prop :=
| fails_rejected e :
    nextIssueReply w = inl e -> CreationFails w e
| fails_issue_rejected e :
    nextIssueReply w = inr {| issue := inl e |} -> CreationFails w e
| fails_no_issue :
    nextIssueReply w = inr {| issue := inr None |} ->
    CreationFails w (newError "Issue creation returned no issue").

(** ** How the guard of [report] ends, and what the fresh path requests *)

(** The four ways the guard of [report] can go. *)
Inductive DedupCheck (m : FaultManager) (w : World) (h : string)
  : option FaultRecord -> FaultManager -> World -> Prop :=
| check_disabled :
    cfgDeduplicate (config m) = false ->
    DedupCheck m w h None m w
| check_absent :
    cfgDeduplicate (config m) = true ->
    faultCache m !! h = None ->
    DedupCheck m w h None m w
| check_live record :
    cfgDeduplicate (config m) = true ->
    faultCache m !! h = Some record ->
    nextTime w - lastSeen record <= cfgDedupeWindow (config m) ->
    DedupCheck m w h (Some record) m (tick w)
| check_expired record :
    cfgDeduplicate (config m) = true ->
    faultCache m !! h = Some record ->
    nextTime w - lastSeen record > cfgDedupeWindow (config m) ->
    DedupCheck m w h None (withCache m (delete h (faultCache m))) (tick w).

(** The creation request of the fresh path, as far as its fields are fixed
    by the report and the configuration. *)
Definition RequestFor {Pf : Platform} (m : FaultManager) (r : FaultReport)
    (input : IssueCreateInput) : Prop :=
  title input
  = "[" +:+ cfgAppName (config m) +:+ "] "
    +:+ orString (option_map toUpperCase (severity r)) "ERROR"
    +:+ ": " +:+ slice0 100 (message r)
  /\ inputTeamId input = cfgTeamId (config m)
  /\ priority input = getPriority (config m) (severity r)
  /\ inputLabelIds input = cfgLabelIds (config m).

(** ** The three ways [report] ends *)

Section ReportRuns.
Context {Pf : Platform}.

(** [ReportRun m w r o m' w']: from the manager [m] in the world [w],
    [report r] ends with [o] in the manager [m'] and the world [w'].  It took
    the duplicate path, or the fresh path with the issue created, or the
    fresh path with the creation failing. *)
Inductive ReportRun (m : FaultManager) (w : World) (r : FaultReport)
  : Outcome ReportResult -> FaultManager -> World -> Prop :=
| run_duplicate existing :
    DedupCheck m w (generateFaultHash r) (Some existing) m (tick w) ->
    let count' := count existing + 1 in
    let comment :=
      {| commentIssueId := issueId existing;
         body := "This error occurred again at "
                 +:+ toISOString (clock w (S (S (ticks w))))
                 +:+ ". Total occurrences: " +:+ pretty count' |} in
    let sent :=
      sendComment comment
        (tick (writeLog Info ("Duplicate fault detected, count: " +:+ pretty count')
                 (tick (tick w)))) in
    ReportRun m w r
      (Returned {| resIssueId := issueId existing;
                   resIdentifier := "duplicate";
                   resUrl := "https://linear.app/issue/" +:+ issueId existing;
                   isDuplicate := true |})
      (withCache m
         (<[generateFaultHash r :=
              {| hash := hash existing; issueId := issueId existing;
                 count := count'; lastSeen := clock w (S (ticks w)) |}]> (faultCache m)))
      (match nextCommentReply w with
       | inr _ => sent
       | inl e =>
           writeLog Warn ("Failed to add comment to existing issue: "
                          +:+ thrownToString e) sent
       end)
| run_created m1 w1 created input :
    DedupCheck m w (generateFaultHash r) None m1 w1 ->
    CreationSucceeds w created ->
    RequestFor m r input ->
    ReportRun m w r
      (Returned {| resIssueId := id created;
                   resIdentifier := identifier created;
                   resUrl := url created;
                   isDuplicate := false |})
      (withCache m1
         (<[generateFaultHash r :=
              {| hash := generateFaultHash r; issueId := id created; count := 1;
                 lastSeen := clock w1 (S (ticks w1)) |}]> (faultCache m1)))
      (writeLog Info ("Created fault issue: " +:+ identifier created)
         (tick (sendIssue input (tick w1))))
| run_failed m1 w1 e input :
    DedupCheck m w (generateFaultHash r) None m1 w1 ->
    CreationFails w e ->
    RequestFor m r input ->
    ReportRun m w r (Threw e) m1
      (writeLog Error ("Failed to create fault issue: " +:+ thrownToString e)
         (sendIssue input (tick w1))).

End ReportRuns.

(** ** The cache as the code keeps it, and the marks of a run *)

(** Every record is filed under its own fingerprint and counts at least one
    sighting. *)
Definition CacheWellFormed (m : FaultManager) : Prop :=
  forall k record,
    faultCache m !! k = Some record -> hash record = k /\ 1 <= count record.

(** For a run of fingerprints reported in turn, whether each has been seen
    before it: in the set [seen], or earlier in the run. *)
Fixpoint marks (seen : gset string) (hs : list string) : list bool :=
  match hs with
  | [] => []
  | h :: rest => bool_decide (h ∈ seen) :: marks ({[h]} ∪ seen) rest
  end.

(** ** faults/manager.ts: the other entry points *)

(** An [Error] value, as far as the code reads it. *)
Record ErrorValue := {
  errorMessage : string;
  errorStack : option string
}.

(** The request-like argument of the Express error handler; [Body] is the
    type of [req.body]. *)
Record ErrorRequest (Body : Type) := {
  reqUrl : option string;
  reqMethod : option string;
  errBody : Body
}.
Arguments reqUrl {Body} _.
Arguments reqMethod {Body} _.
Arguments errBody {Body} _.

Section FaultEntryPoints.
Context {Pf : Platform}.

(** [reportError(error, context)] *)
Definition reportError (error : ErrorValue) (ctx : option JsObject)
  : Js FaultManager ReportResult :=
  report {| message := errorMessage error;
            stack := errorStack error;
            context := ctx;
            severity := Some "error";
            userId := None; reportUrl := None; metadata := None |}.

(** The function that [createGlobalHandler()] returns, run on an error:
    [this.reportError(error).catch((e) => ...)], followed to the settlement
    of the promise it starts. *)
Definition createGlobalHandler (error : ErrorValue) : Js FaultManager unit :=
  tryCatch
    (reportError error None ;; ret tt)
    (fun e => logger Error ("Failed to report error to Linear: " +:+ thrownToString e)).

(** The middleware that [expressErrorHandler()] returns, run on an error and
    a request.  [contextOf method body] is the object literal
    [{ method: req.method, body: req.body }]; the [next] argument is never
    used by the code. *)
Definition expressErrorHandler {Body : Type}
    (contextOf : option string -> Body -> JsObject)
    (error : ErrorValue) (req : ErrorRequest Body) : Js FaultManager Response :=
  tryCatch
    (report {| message := errorMessage error;
               stack := errorStack error;
               severity := Some "error";
               reportUrl := reqUrl req;
               context := Some (contextOf (reqMethod req) (errBody req));
               userId := None; metadata := None |} ;;
     ret tt)
    (fun e => logger Error ("Failed to report error to Linear: " +:+ thrownToString e)) ;;
  ret {| status := 500; json := ErrorBody "Internal server error" |}.

(** The clock readings of a run of reports of one fault stay within the
    window [win] of each other as far as the lookups compare them: a lookup
    compares its reading with the one that last stamped the record, which is
    one or two readings earlier. *)
Definition SlidingWindow (w : World) (win : Z) : Prop :=
  forall n, (ticks w <= n)%nat ->
    clock w (S n) - clock w n <= win /\ clock w (S (S n)) - clock w n <= win.

End FaultEntryPoints.

(** ** webhooks/handler.ts: removing listeners, and the dispatch *)

Section WebhookDispatch.
Context {Pf : Platform}.

(** [removeAllListeners(eventType)] *)
Definition removeAllListeners (eventType : option string) : Js LinearWebhookHandler unit :=
  this <- getThis ;;
  match truthyString eventType with
  | Some t =>
      setThis {| whConfig := whConfig this; handlers := delete t (handlers this) |}
  | None =>
      setThis {| whConfig := whConfig this; handlers := ∅ |}
  end.

(** The event [process] builds from a payload. *)
Definition eventOf (payload : WebhookPayload JsObject) : WebhookEvent :=
  {| evType := type payload;
     evAction := action payload;
     evData := data payload;
     evTimestamp := dateParse (createdAt payload);
     evOrganizationId := organizationId payload |}.

(** The callbacks [process] runs for an event, in the order it runs them. *)
Definition handlersFor (hd : LinearWebhookHandler) (event : WebhookEvent)
  : list WebhookEventHandler :=
  (default [] (handlers hd !! evType event)
   ++ default [] (handlers hd !! (evType event +:+ "." +:+ evAction event))
   ++ default [] (handlers hd !! "*"))%list.

(** The world after one callback has run on it: what the callback made of
    it, with one more line in the log if the callback threw. *)
Definition settled (event : WebhookEvent) (w : World) (h : WebhookEventHandler) : World :=
  match h event w with
  | (Returned _, w') => w'
  | (Threw e, w') => writeLog Error ("Webhook handler error: " +:+ thrownToString e) w'
  end.

(** The world after [process] has accepted a payload in the world [w]. *)
Definition dispatched (hd : LinearWebhookHandler) (payload : WebhookPayload JsObject)
    (w : World) : World :=
  let event := eventOf payload in
  fold_left (settled event) (handlersFor hd event)
    (writeLog Info ("Processing webhook: " +:+ evType event +:+ "." +:+ evAction event) w).

(** The world after the signature check of [process] has let a request
    through: a warning is logged when a signature came and no secret is
    configured. *)
Definition afterCheck (hd : LinearWebhookHandler) (signature : option string)
    (w : World) : World :=
  match truthyString signature, truthyString (signingSecret (whConfig hd)) with
  | Some _, None =>
      writeLog Warn "No signing secret configured, skipping signature verification" w
  | _, _ => w
  end.

(** Whether the signature check of [process] lets a request through, stops
    it as invalid, or breaks on it. *)
Inductive Verdict := Accepted | Invalid | Broken.

Definition verdict (hd : LinearWebhookHandler) (payload : WebhookPayload JsObject)
    (signature : option string) : Verdict :=
  match truthyString signature, truthyString (signingSecret (whConfig hd)) with
  | Some sig, Some secret =>
      let expected := bufferFrom (hmacSha256Hex secret (payloadToJson payload)) in
      if (length (bufferFrom sig) =? length expected)%nat
      then if bool_decide (bufferFrom sig = expected) then Accepted else Invalid
      else Broken
  | _, _ => Accepted
  end.

End WebhookDispatch.

(** ** client.ts: the unified client *)

(** [OAuthConfig] of [auth/oauth.ts]. *)
Record OAuthConfig := {
  clientId : string;
  clientSecret : string;
  redirectUri : string;
  scopes : option (list string)
}.

(** A [LinearAuthClient], as far as its constructor goes: [this.config]. *)
Record LinearAuthClient := {
  authClientId : string;
  authClientSecret : string;
  authRedirectUri : string;
  authScopes : list string
}.

(** [new LinearAuthClient(config)]: [config.scopes || [...]], an array being
    truthy even when empty. *)
Definition newLinearAuthClient (c : OAuthConfig) : LinearAuthClient :=
  {| authClientId := clientId c;
     authClientSecret := clientSecret c;
     authRedirectUri := redirectUri c;
     authScopes := nullish (scopes c) ["read"; "write"; "issues:create"; "comments:create"] |}.

(** [new LinearSDK({ apiKey })] and [new LinearSDK({ accessToken })]. *)
Inductive LinearSDK :=
| SdkApiKey (apiKey : string)
| SdkAccessToken (token : string).

(** [{ ...faults, accessToken: token }] *)
Definition withAccessToken (faults : FaultConfig) (token : string) : FaultConfig :=
  {| accessToken := token;
     teamId := teamId faults;
     labelIds := labelIds faults;
     defaultPriority := defaultPriority faults;
     appName := appName faults;
     environment := environment faults;
     deduplicate := deduplicate faults;
     dedupeWindow := dedupeWindow faults |}.

Section Client.
Context {Pf : Platform}.

(** [LinearClientOptions]; the [accessToken] of [optFaults] is the one field
    its type leaves out, and the spread overwrites it. *)
Record LinearClientOptions := {
  optOauth : option OAuthConfig;
  optApiKey : option string;
  optAccessToken : option string;
  optWebhook : option WebhookConfig;
  optFaults : option FaultConfig
}.

Record LinearClient := {
  options : LinearClientOptions;
  sdk : option LinearSDK;
  authClient : option LinearAuthClient;
  webhookHandler : option LinearWebhookHandler;
  faultManager : option FaultManager
}.

(** [constructor(options)] *)
Definition newLinearClient (o : LinearClientOptions) : LinearClient :=
  {| options := o;
     authClient :=
       match optOauth o with
       | Some oauth => Some (newLinearAuthClient oauth)
       | None => None
       end;
     sdk :=
       match truthyString (optApiKey o) with
       | Some key => Some (SdkApiKey key)
       | None =>
           match truthyString (optAccessToken o) with
           | Some token => Some (SdkAccessToken token)
           | None => None
           end
       end;
     webhookHandler :=
       match optWebhook o with
       | Some webhook => Some (newWebhookHandler webhook)
       | None => None
       end;
     faultManager :=
       match optFaults o with
       | Some faults =>
           match truthyString (optApiKey o) with
           | Some key => Some (newFaultManager (withAccessToken faults key))
           | None =>
               match truthyString (optAccessToken o) with
               | Some token => Some (newFaultManager (withAccessToken faults token))
               | None => None
               end
           end
       | None => None
       end |}.

(** [get auth()] *)
Definition auth : Js LinearClient LinearAuthClient :=
  this <- getThis ;;
  match authClient this with
  | None => throw (newError "OAuth not configured. Provide oauth config in constructor.")
  | Some a => ret a
  end.

(** [get webhooks()] *)
Definition webhooks : Js LinearClient LinearWebhookHandler :=
  this <- getThis ;;
  match webhookHandler this with
  | None =>
      let created :=
        newWebhookHandler (default {| signingSecret := None |} (optWebhook (options this))) in
      setThis {| options := options this; sdk := sdk this; authClient := authClient this;
                 webhookHandler := Some created; faultManager := faultManager this |} ;;
      ret created
  | Some h => ret h
  end.

(** [get faults()] *)
Definition faults : Js LinearClient FaultManager :=
  this <- getThis ;;
  match faultManager this with
  | None =>
      throw (newError "Fault manager not configured. Provide faults config and credentials.")
  | Some m => ret m
  end.

(** [get api()] *)
Definition api : Js LinearClient LinearSDK :=
  this <- getThis ;;
  match sdk this with
  | None => throw (newError "Linear SDK not initialized. Provide apiKey or accessToken.")
  | Some s => ret s
  end.


(** A method of the fault manager run through the client's reference to it:
    what it does to the manager shows in the client. *)
Definition onFaultManager {A} (m : FaultManager) (method : Js FaultManager A)
  : Js LinearClient A :=
  fun s =>
    let (o, s') := method (m, snd s) in
    let this := fst s in
    (o, ({| options := options this; sdk := sdk this; authClient := authClient this;
            webhookHandler := webhookHandler this; faultManager := Some (fst s') |},
         snd s')).


(** [LinearClient.reportError(error, context)]:
    [this.faults.reportError(error, context)] *)
Definition clientReportError (error : ErrorValue) (ctx : option JsObject)
  : Js LinearClient ReportResult :=
  m <- faults ;;
  onFaultManager m (reportError error ctx).

(** [LinearClient.createIssue(input)] *)
Definition clientCreateIssue (input : IssueCreateInput) : Js LinearClient Issue :=
  _ <- api ;;
  payload <- createIssue input ;;
  created <- awaitIssue payload ;;
  match created with
  | None => throw (newError "Issue creation failed")
  | Some c => ret {| id := id c; identifier := identifier c; url := url c |}
  end.

End Client.

(** ** Concrete instances, for running the model *)

(** A world in which nothing has happened yet. *)
Definition startWorld (clk : nat -> Z) (issues : nat -> Thrown + IssuePayload)
    (comments : nat -> Thrown + unit) : World :=
  {| clock := clk; ticks := 0;
     issueReplies := issues; commentReplies := comments;
     issueRequests := []; commentRequests := []; logged := [] |}.

Module Sample.

(** An instance of [Platform] that computes.  Objects are lists of keys with
    the JSON text of their values.  The digests are stand-ins (the text
    itself for MD5, a fixed string of 64 digits for the HMAC): the theorems
    below hold for every instance and use no property of this one. *)
Definition digits64 : string :=
  "0000000000000000000000000000000000000000000000000000000000000000".

Definition platform : Platform :=
  {| JsObject := list (string * string);
     objectKeys := fun o => map fst o;
     jsonStringify := fun o =>
       "{" +:+ String.concat "," (map (fun kv => fst kv +:+ ":" +:+ snd kv) o) +:+ "}";
     payloadToJson := fun p =>
       "{" +:+ action p +:+ "," +:+ type p +:+ "," +:+ createdAt p +:+ "}";
     md5Hex := fun s => s;
     hmacSha256Hex := fun _ _ => digits64;
     bufferFrom := String.list_byte_of_string;
     bufferFrom_hmac := fun _ _ => eq_refl;
     toISOString := fun t => pretty t;
     dateParse := fun _ => None |}.

(** An object literal of the instance. *)
Definition object (o : list (string * string)) : JsObject (Platform := platform) := o.

(** The tracker of the test suite: every issue is created as [issue-123]. *)
Definition testIssue : Issue :=
  {| id := "issue-123"; identifier := "TEST-1";
     url := "https://linear.app/test/issue/TEST-1" |}.

Definition trackerUp : nat -> Thrown + IssuePayload :=
  fun _ => inr {| issue := inr (Some testIssue) |}.

Definition trackerDown : nat -> Thrown + IssuePayload :=
  fun _ => inl (newError "Network error").

Definition commentsUp : nat -> Thrown + unit := fun _ => inr tt.

Definition commentsDown : nat -> Thrown + unit :=
  fun _ => inl (newError "Rate limited").

(** A clock that advances one second per reading, and one that jumps two
    minutes ahead from its third reading on. *)
Definition steadyClock : nat -> Z := fun n => 1000 * Z.of_nat n.

Definition jumpingClock : nat -> Z :=
  fun n => if (n <? 2)%nat then 1000 * Z.of_nat n else 120000 + 1000 * Z.of_nat n.

(** The configuration and the report of the deduplication test. *)
Definition dedupeConfig : FaultConfig :=
  {| accessToken := "test-token"; teamId := "team-123"; labelIds := None;
     defaultPriority := None; appName := None; environment := None;
     deduplicate := Some true; dedupeWindow := Some 60000 |}.

(** The configuration of the other tests: deduplication off. *)
Definition plainConfig : FaultConfig :=
  {| accessToken := "test-token"; teamId := "team-123"; labelIds := None;
     defaultPriority := None; appName := Some "TestApp"; environment := Some "test";
     deduplicate := Some false; dedupeWindow := None |}.

Definition duplicateError : FaultReport (Pf := platform) :=
  {| message := "Duplicate error";
     stack := Some ("Error: Duplicate" +:+ newline +:+ "    at test.js:1:1");
     context := None; severity := None; userId := None; reportUrl := None;
     metadata := None |}.

(** The same fault seen elsewhere: other severity, context and deeper frames. *)
Definition duplicateErrorAgain : FaultReport (Pf := platform) :=
  {| message := "Duplicate error";
     stack := Some ("Error: Duplicate" +:+ newline +:+ "    at other.js:7:3");
     context := Some (object [("requestId", "42")]); severity := Some "critical";
     userId := Some "user-1"; reportUrl := Some "/checkout";
     metadata := None |}.

Definition issuePayload : WebhookPayload (JsObject (Platform := platform)) :=
  {| action := "create"; type := "Issue"; data := object [("id", "issue-1")];
     createdAt := "2024-01-01T00:00:00.000Z"; organizationId := "org-1";
     webhookId := "webhook-1"; webhookTimestamp := 1704067200000 |}.

(** The handler of the webhook tests: a signing secret is configured. *)
Definition securedHandler : LinearWebhookHandler (Pf := platform) :=
  newWebhookHandler {| signingSecret := Some "test-secret" |}.

(** A new manager and a world where nothing has happened. *)
Definition start (c : FaultConfig) (clk : nat -> Z)
    (issues : nat -> Thrown + IssuePayload) (comments : nat -> Thrown + unit)
  : FaultManager * World :=
  (newFaultManager c, startWorld clk issues comments).

(** The state after [duplicateError] was reported to a new manager with
    deduplication on, the tracker creating its issue. *)
Definition afterFirst (clk : nat -> Z) (comments : nat -> Thrown + unit)
  : FaultManager * World :=
  snd (report duplicateError (start dedupeConfig clk trackerUp comments)).

(** The record that report leaves in the cache. *)
Definition firstRecord : FaultRecord :=
  {| hash := "Duplicate error:Error: Duplicate"; issueId := "issue-123";
     count := 1; lastSeen := 1000 |}.

(** More inputs: a configuration with a low default priority, an error
    value, two reports whose fingerprints collide, callbacks, and options of
    the unified client. *)
Definition lowPriorityConfig : FaultConfig :=
  {| accessToken := "test-token"; teamId := "team-123"; labelIds := Some ["label-1"];
     defaultPriority := Some 4; appName := Some "TestApp"; environment := Some "test";
     deduplicate := Some true; dedupeWindow := Some 60000 |}.

Definition bareReport : FaultReport (Pf := platform) :=
  {| message := "Test error"; stack := Some ""; context := Some (object []);
     severity := None; userId := None; reportUrl := Some ""; metadata := None |}.

Definition boom : ErrorValue :=
  {| errorMessage := "Test error";
     errorStack := Some ("Error: Test error" +:+ newline +:+ "    at test.js:1:1") |}.

Definition colonInStack : FaultReport (Pf := platform) :=
  {| message := "Timeout"; stack := Some "connect: refused";
     context := None; severity := None; userId := None; reportUrl := None;
     metadata := None |}.

Definition colonInMessage : FaultReport (Pf := platform) :=
  {| message := "Timeout:connect"; stack := Some " refused";
     context := None; severity := None; userId := None; reportUrl := None;
     metadata := None |}.

(** The request-like value of the Express handler, with the object literal
    [{ method, body }] of the instance. *)
Definition contextOf (method : option string) (body : string)
  : JsObject (Platform := platform) :=
  object [("method", default "undefined" method); ("body", body)].

Definition failedRequest : ErrorRequest string :=
  {| reqUrl := Some "/checkout"; reqMethod := Some "POST"; errBody := "{}" |}.

(** A callback that leaves a line in the log, and one that throws. *)
Definition noting : @WebhookEventHandler platform :=
  fun event w => (Returned tt, writeLog Debug ("seen " +:+ evType event) w).


(** A signature of the right length that is not the digest. *)
Definition wrongSignature : string :=
  "1000000000000000000000000000000000000000000000000000000000000000".

(** A handler without a signing secret. *)
Definition openHandler : LinearWebhookHandler (Pf := platform) :=
  newWebhookHandler {| signingSecret := None |}.

(** Options of the unified client: an API key and a [faults] section; the
    same without credentials. *)
Definition clientOptions : LinearClientOptions :=
  {| optOauth := None; optApiKey := Some "lin_api_key"; optAccessToken := None;
     optWebhook := None; optFaults := Some dedupeConfig |}.

Definition anonymousOptions : LinearClientOptions :=
  {| optOauth := None; optApiKey := Some ""; optAccessToken := None;
     optWebhook := None; optFaults := Some dedupeConfig |}.

(** A clock that advances one second per reading for its first thirty
    readings and then stands still. *)
Definition boundedClock : nat -> Z := fun n => 1000 * Z.of_nat (Nat.min n 30).

Definition someInput : IssueCreateInput :=
  {| title := "A task"; description := "To do"; inputTeamId := "team-123";
     priority := 3; inputLabelIds := None |}.

End Sample.

(** * Properties *)

Section FaultFacts.
Context {Pf : Platform}.

Implicit Types (m : FaultManager) (w : World) (r : FaultReport) (h : string).

(** Unfolding the computations down to functions on states. *)
Ltac js_unfold :=
  unfold report, dedupCheck, reportDuplicate, reportFresh, checkDuplicate,
    formatDescription, clearCache, updateCache, awaitIssue, createIssue,
    createComment, logger, newDate, setThis, getThis, tryCatch, bind, throw, ret.

(** *** The lookup *)

Lemma checkDuplicate_absent m w h :
  faultCache m !! h = None ->
  checkDuplicate h (m, w) = (Returned None, (m, w)).
Proof. intros E. js_unfold. cbn. now rewrite E. Qed.

Lemma checkDuplicate_live m w h record :
  faultCache m !! h = Some record ->
  nextTime w - lastSeen record <= cfgDedupeWindow (config m) ->
  checkDuplicate h (m, w) = (Returned (Some record), (m, tick w)).
Proof.
  intros E Hle. js_unfold. cbn. rewrite E. cbn.
  destruct (Z.gtb_spec (nextTime w - lastSeen record) (cfgDedupeWindow (config m)));
    [lia | reflexivity].
Qed.

Lemma checkDuplicate_expired m w h record :
  faultCache m !! h = Some record ->
  nextTime w - lastSeen record > cfgDedupeWindow (config m) ->
  checkDuplicate h (m, w)
  = (Returned None, (withCache m (delete h (faultCache m)), tick w)).
Proof.
  intros E Hgt. js_unfold. cbn. rewrite E. cbn.
  destruct (Z.gtb_spec (nextTime w - lastSeen record) (cfgDedupeWindow (config m)));
    [reflexivity | lia].
Qed.

Lemma dedupCheck_disabled m w h :
  cfgDeduplicate (config m) = false ->
  dedupCheck h (m, w) = (Returned None, (m, w)).
Proof. intros E. unfold dedupCheck, bind, getThis, ret. cbn. now rewrite E. Qed.

Lemma dedupCheck_enabled m w h :
  cfgDeduplicate (config m) = true ->
  dedupCheck h (m, w) = checkDuplicate h (m, w).
Proof. intros E. unfold dedupCheck, bind, getThis. cbn. now rewrite E. Qed.

Lemma dedupCheck_run m w h :
  exists found m' w',
    dedupCheck h (m, w) = (Returned found, (m', w')) /\ DedupCheck m w h found m' w'.
Proof.
  destruct (cfgDeduplicate (config m)) eqn:D.
  - rewrite (dedupCheck_enabled _ _ _ D).
    destruct (faultCache m !! h) as [record|] eqn:E.
    + destruct (Z_le_gt_dec (nextTime w - lastSeen record) (cfgDedupeWindow (config m))).
      * eexists _, _, _. split; [eapply checkDuplicate_live | eapply check_live]; eauto.
      * eexists _, _, _. split; [eapply checkDuplicate_expired | eapply check_expired]; eauto.
    + eexists _, _, _. split; [now apply checkDuplicate_absent | now apply check_absent].
  - eexists _, _, _. split; [now apply dedupCheck_disabled | now apply check_disabled].
Qed.

Lemma dedupCheck_inv m w h o m' w' :
  dedupCheck h (m, w) = (o, (m', w')) ->
  exists found, o = Returned found /\ DedupCheck m w h found m' w'.
Proof.
  intros E. destruct (dedupCheck_run m w h) as (found & m1 & w1 & E1 & D).
  rewrite E1 in E. inversion E; subst. eauto.
Qed.

(** *** The duplicate path *)

(** The duplicate path always returns; the comment's fate only shows in the
    log. *)
Lemma reportDuplicate_run m w h existing :
  let touched :=
    {| hash := hash existing; issueId := issueId existing;
       count := count existing + 1; lastSeen := nextTime w |} in
  let comment :=
    {| commentIssueId := issueId existing;
       body := "This error occurred again at " +:+ toISOString (clock w (S (ticks w)))
               +:+ ". Total occurrences: " +:+ pretty (count existing + 1) |} in
  let sent :=
    sendComment comment
      (tick (writeLog Info ("Duplicate fault detected, count: "
                            +:+ pretty (count existing + 1)) (tick w))) in
  reportDuplicate h existing (m, w)
  = (Returned {| resIssueId := issueId existing;
                 resIdentifier := "duplicate";
                 resUrl := "https://linear.app/issue/" +:+ issueId existing;
                 isDuplicate := true |},
     (withCache m (<[h := touched]> (faultCache m)),
      match nextCommentReply w with
      | inr _ => sent
      | inl e =>
          writeLog Warn ("Failed to add comment to existing issue: "
                         +:+ thrownToString e) sent
      end)).
Proof.
  intros touched comment sent. js_unfold.
  cbn [fst snd]. unfold nextCommentReply, nextTime. cbn [commentReplies commentRequests tick writeLog ticks clock].
  fold comment. 
  destruct (commentReplies w (length (commentRequests w))); reflexivity.
Qed.

(** *** The fresh path *)

Lemma creation_cases w :
  (exists created, CreationSucceeds w created) \/ (exists e, CreationFails w e).
Proof.
  unfold CreationSucceeds.
  destruct (nextIssueReply w) as [e | [[e | [created |]]]] eqn:E.
  - right. exists e. now apply fails_rejected.
  - right. exists e. now apply fails_issue_rejected.
  - left. now exists created.
  - right. eexists. now apply fails_no_issue.
Qed.

Lemma creation_exclusive w created e :
  CreationSucceeds w created -> CreationFails w e -> False.
Proof. unfold CreationSucceeds. intros Cr F. destruct F; congruence. Qed.

Lemma reportFresh_ok m w h r created :
  CreationSucceeds w created ->
  exists input,
    RequestFor m r input /\
    reportFresh h r (m, w)
    = (Returned {| resIssueId := id created;
                   resIdentifier := identifier created;
                   resUrl := url created;
                   isDuplicate := false |},
       (withCache m
          (<[h := {| hash := h; issueId := id created; count := 1;
                     lastSeen := clock w (S (ticks w)) |}]> (faultCache m)),
        writeLog Info ("Created fault issue: " +:+ identifier created)
          (tick (sendIssue input (tick w))))).
Proof.
  unfold CreationSucceeds, nextIssueReply. intros Cr.
  eexists. split; cycle 1.
  - js_unfold. cbn [fst snd]. unfold nextIssueReply, nextTime.
    cbn [issueReplies issueRequests tick sendIssue ticks clock].
    rewrite Cr. cbn [issue fst snd]. reflexivity.
  - repeat split.
Qed.

Lemma reportFresh_fail m w h r e :
  CreationFails w e ->
  exists input,
    RequestFor m r input /\
    reportFresh h r (m, w)
    = (Threw e,
       (m, writeLog Error ("Failed to create fault issue: " +:+ thrownToString e)
             (sendIssue input (tick w)))).
Proof.
  unfold nextIssueReply. intros F.
  eexists. split; cycle 1.
  - js_unfold. cbn [fst snd]. unfold nextIssueReply.
    cbn [issueReplies issueRequests tick].
    destruct F as [e F | e F |F]; unfold nextIssueReply in F; rewrite F;
      cbn [issue fst snd]; reflexivity.
  - repeat split.
Qed.

(** *** The whole of [report] *)

Lemma report_duplicate_path m w r existing m1 w1 :
  dedupCheck (generateFaultHash r) (m, w) = (Returned (Some existing), (m1, w1)) ->
  report r (m, w) = reportDuplicate (generateFaultHash r) existing (m1, w1).
Proof. intros E. unfold report, bind. now rewrite E. Qed.

Lemma report_fresh_path m w r m1 w1 :
  dedupCheck (generateFaultHash r) (m, w) = (Returned None, (m1, w1)) ->
  report r (m, w) = reportFresh (generateFaultHash r) r (m1, w1).
Proof. intros E. unfold report, bind. now rewrite E. Qed.

(** The lookup leaves the tracker alone. *)
Lemma DedupCheck_tracker m w h found m1 w1 :
  DedupCheck m w h found m1 w1 ->
  nextIssueReply w1 = nextIssueReply w /\ nextCommentReply w1 = nextCommentReply w.
Proof. intros D. destruct D; split; reflexivity. Qed.

(** The lookup keeps the configuration and adds no record. *)
Lemma DedupCheck_cache m w h found m1 w1 :
  DedupCheck m w h found m1 w1 ->
  config m1 = config m /\ faultCache m1 ⊆ faultCache m.
Proof.
  intros D. destruct D; split; try reflexivity.
  cbn. apply delete_subseteq.
Qed.

(** *** The fingerprint *)

Lemma generateFaultHash_content r :
  generateFaultHash r = md5Hex (message r +:+ ":" +:+ stackHead r).
Proof. reflexivity. Qed.

Lemma stackHead_firstLine r1 r2 :
  option_map firstLine (stack r1) = option_map firstLine (stack r2) ->
  stackHead r1 = stackHead r2.
Proof.
  unfold stackHead. destruct (stack r1), (stack r2); cbn; congruence.
Qed.

(** C2. The fingerprint is a function of the message and of the first line
    of the stack alone: two reports that agree on the message and on the
    first line of the stack (or both have no stack) have the same fingerprint,
    whatever their context, metadata, severity, user and URL are.  No state
    and no clock enter [generateFaultHash]. *)
Theorem fingerprint_deterministic r1 r2 :
  message r1 = message r2 ->
  option_map firstLine (stack r1) = option_map firstLine (stack r2) ->
  generateFaultHash r1 = generateFaultHash r2.
Proof.
  intros Hm Hs. rewrite !generateFaultHash_content.
  now rewrite Hm, (stackHead_firstLine _ _ Hs).
Qed.

(** *** Priorities *)

Lemma getPriority_other (cfg : Config) s :
  s <> "critical" -> s <> "error" -> s <> "warning" ->
  getPriority cfg (Some s) = cfgDefaultPriority cfg.
Proof.
  intros H1 H2 H3. unfold getPriority.
  apply String.eqb_neq in H1, H2, H3. now rewrite H1, H2, H3.
Qed.

(** C6. [getPriority] is a total function: critical, error and warning map
    to the levels 1, 2 and 3, every other severity and an absent one map to
    the configured default, and the constructor sets that default to 2 when
    the caller gives none (and to the caller's level otherwise). *)
Theorem priority_mapping (c : FaultConfig) :
  let cfg := config (newFaultManager c) in
  getPriority cfg (Some "critical") = 1 /\
  getPriority cfg (Some "error") = 2 /\
  getPriority cfg (Some "warning") = 3 /\
  (forall s, s <> "critical" -> s <> "error" -> s <> "warning" ->
             getPriority cfg (Some s) = cfgDefaultPriority cfg) /\
  getPriority cfg None = cfgDefaultPriority cfg /\
  (defaultPriority c = None -> cfgDefaultPriority cfg = 2) /\
  (forall p, defaultPriority c = Some p -> p <> 0 -> cfgDefaultPriority cfg = p).
Proof.
  intros cfg. repeat split.
  - intros s. apply getPriority_other.
  - intros E. subst cfg. cbn. now rewrite E.
  - intros p E Hp. subst cfg. cbn. rewrite E. cbn.
    destruct (Z.eqb_spec p 0); [contradiction | reflexivity].
Qed.

(** *** Claims on the duplicate path *)

(** C4. On the duplicate path (deduplication on, a record of the fingerprint
    in the cache and within the window), when the tracker rejects the
    comment with [e], [report] still returns the envelope with
    [isDuplicate = true] and the cached ticket; the cache holds the record
    with its count incremented and [lastSeen] set to the time read at the
    update; the failure appears in the log as a warning and nowhere else. *)
Theorem comment_failure_is_swallowed m w r existing e :
  cfgDeduplicate (config m) = true ->
  faultCache m !! generateFaultHash r = Some existing ->
  nextTime w - lastSeen existing <= cfgDedupeWindow (config m) ->
  nextCommentReply w = inl e ->
  exists res m' w',
    report r (m, w) = (Returned res, (m', w')) /\
    isDuplicate res = true /\
    resIssueId res = issueId existing /\
    faultCache m'
    = <[generateFaultHash r :=
          {| hash := hash existing; issueId := issueId existing;
             count := count existing + 1;
             lastSeen := clock w (S (ticks w)) |}]> (faultCache m) /\
    logged w'
    = (logged w
       ++ [(Info, "Duplicate fault detected, count: " +:+ pretty (count existing + 1));
           (Warn, "Failed to add comment to existing issue: " +:+ thrownToString e)])%list.
Proof.
  intros D E Hle C.
  eexists _, _, _. split.
  - erewrite report_duplicate_path.
    + rewrite reportDuplicate_run. reflexivity.
    + rewrite dedupCheck_enabled by exact D. apply checkDuplicate_live; eassumption.
  - unfold nextCommentReply in *. cbn. rewrite C. cbn.
    do 3 (split; [reflexivity |]). rewrite <- app_assoc. reflexivity.
Qed.

(** C8. Whenever [report] returns an envelope with [isDuplicate = true], the
    fingerprint had a record in the cache, [issueId] is that record's ticket,
    the identifier is the constant ['duplicate'] and the URL is
    ['https://linear.app/issue/'] followed by the cached ticket id. *)
Theorem duplicate_envelope m w r res s' :
  report r (m, w) = (Returned res, s') ->
  isDuplicate res = true ->
  exists cached,
    faultCache m !! generateFaultHash r = Some cached /\
    resIssueId res = issueId cached /\
    resIdentifier res = "duplicate" /\
    resUrl res = "https://linear.app/issue/" +:+ issueId cached.
Proof.
  intros R Dup.
  destruct (dedupCheck_run m w (generateFaultHash r)) as (found & m1 & w1 & E & D).
  destruct found as [existing|].
  - rewrite (report_duplicate_path _ _ _ _ _ _ E), reportDuplicate_run in R.
    inversion R; subst. exists existing. inversion D; subst. repeat split; assumption.
  - rewrite (report_fresh_path _ _ _ _ _ E) in R.
    destruct (creation_cases w1) as [[created Cr] | [e F]].
    + destruct (reportFresh_ok m1 w1 (generateFaultHash r) r created Cr) as (input & _ & Q).
      rewrite Q in R. inversion R; subst. discriminate.
    + destruct (reportFresh_fail m1 w1 (generateFaultHash r) r e F) as (input & _ & Q).
      rewrite Q in R. discriminate.
Qed.

(** *** Claims on the fresh path *)

(** C9. With deduplication off, a report whose issue is created stores the
    record (fingerprint, new ticket, count 1, [lastSeen] the time read at the
    insertion) under the fingerprint, over whatever was there: the flag
    guards the lookup, not the insertion, and the cache gains the
    fingerprint. *)
Theorem disabled_dedup_still_caches m w r created :
  cfgDeduplicate (config m) = false ->
  CreationSucceeds w created ->
  exists res m' w',
    report r (m, w) = (Returned res, (m', w')) /\
    isDuplicate res = false /\
    faultCache m'
    = <[generateFaultHash r :=
          {| hash := generateFaultHash r; issueId := id created;
             count := 1; lastSeen := clock w (S (ticks w)) |}]> (faultCache m) /\
    dom (faultCache m') = {[generateFaultHash r]} ∪ dom (faultCache m).
Proof.
  intros D Cr.
  destruct (reportFresh_ok m w (generateFaultHash r) r created Cr) as (input & _ & Q).
  eexists _, _, _. split.
  - erewrite report_fresh_path; [exact Q | now apply dedupCheck_disabled].
  - cbn. repeat split. apply dom_insert_L.
Qed.


(** *** Claims on sequences of reports *)

(** C1. With deduplication on, take two reports with the same fingerprint,
    submitted one after the other, the first of them a first sighting: its
    lookup finds no record within the window ([m1] and [w1] are the manager
    and the world that lookup leaves; they are [m] and [w] when the cache
    has no record of the fingerprint).  If the tracker creates the first
    report's issue, and the second report's lookup reads the clock no more
    than the window after the reading that stamped the first report's
    record, then the first result has [isDuplicate = false], the second has
    [isDuplicate = true], and the second carries the [issueId] of the first.
    (After the first lookup, the next clock reading dates the description,
    the one after it stamps the record, the third is the lookup of the
    second call.) *)
Theorem dedup_within_window m w r1 r2 created m1 w1 :
  cfgDeduplicate (config m) = true ->
  generateFaultHash r2 = generateFaultHash r1 ->
  dedupCheck (generateFaultHash r1) (m, w) = (Returned None, (m1, w1)) ->
  CreationSucceeds w created ->
  clock w1 (S (S (ticks w1))) - clock w1 (S (ticks w1)) <= cfgDedupeWindow (config m) ->
  exists res1 s1 res2 s2,
    report r1 (m, w) = (Returned res1, s1) /\
    report r2 s1 = (Returned res2, s2) /\
    isDuplicate res1 = false /\
    isDuplicate res2 = true /\
    resIssueId res2 = resIssueId res1.
Proof.
  intros D Same Miss Cr Within.
  destruct (dedupCheck_inv _ _ _ _ _ _ Miss) as (found & Hf & Chk).
  inversion Hf; subst found.
  destruct (DedupCheck_tracker _ _ _ _ _ _ Chk) as [Ti _].
  destruct (DedupCheck_cache _ _ _ _ _ _ Chk) as [Cfg _].
  assert (Cr1 : CreationSucceeds w1 created) by (unfold CreationSucceeds; congruence).
  destruct (reportFresh_ok m1 w1 (generateFaultHash r1) r1 created Cr1) as (input & _ & Q).
  eexists _, _, _, _. split; [| split].
  - erewrite report_fresh_path; [exact Q | exact Miss].
  - erewrite report_duplicate_path.
    + rewrite reportDuplicate_run. reflexivity.
    + rewrite dedupCheck_enabled by (cbn; congruence). rewrite Same.
      apply checkDuplicate_live.
      * cbn. apply lookup_insert_eq.
      * cbn. rewrite Cfg. exact Within.
  - cbn. repeat split.
Qed.

(** With deduplication off, [report] is the fresh path, whatever the cache
    holds. *)
Lemma report_disabled m w r :
  cfgDeduplicate (config m) = false ->
  report r (m, w) = reportFresh (generateFaultHash r) r (m, w).
Proof. intros D. apply report_fresh_path. now apply dedupCheck_disabled. Qed.

Lemma report_disabled_run m w r created :
  cfgDeduplicate (config m) = false ->
  CreationSucceeds w created ->
  exists res m' w',
    report r (m, w) = (Returned res, (m', w')) /\
    isDuplicate res = false /\
    config m' = config m /\
    issueReplies w' = issueReplies w /\
    length (issueRequests w') = S (length (issueRequests w)) /\
    commentRequests w' = commentRequests w.
Proof.
  intros D Cr.
  destruct (reportFresh_ok m w (generateFaultHash r) r created Cr) as (input & _ & Q).
  eexists _, _, _. split.
  - rewrite report_disabled by exact D. exact Q.
  - cbn. repeat split. rewrite length_app. cbn. lia.
Qed.

Lemma reportAll_disabled rs : forall m w,
  cfgDeduplicate (config m) = false ->
  (forall n, (n < length rs)%nat ->
     exists created,
       issueReplies w (length (issueRequests w) + n)
       = inr {| issue := inr (Some created) |}) ->
  exists results m' w',
    reportAll rs (m, w) = (Returned results, (m', w')) /\
    length results = length rs /\
    Forall (fun res => isDuplicate res = false) results /\
    length (issueRequests w') = (length (issueRequests w) + length rs)%nat /\
    commentRequests w' = commentRequests w.
Proof.
  induction rs as [| r rest IH]; intros m w D Up.
  - exists [], m, w. cbn. repeat split; [constructor | lia].
  - destruct (Up 0%nat) as [created Cr]; [cbn; lia |].
    rewrite Nat.add_0_r in Cr.
    destruct (report_disabled_run m w r created D Cr)
      as (res & m1 & w1 & R & Fresh & Cfg & Replies & Sent & Comments).
    destruct (IH m1 w1) as (results & m2 & w2 & RA & Len & All & Sent2 & Comments2).
    + now rewrite Cfg.
    + intros n Hn. rewrite Replies, Sent.
      destruct (Up (S n)) as [c Hc]; [cbn; lia |].
      exists c. rewrite <- Hc. f_equal. lia.
    + exists (res :: results), m2, w2. split; [| split; [| split; [| split]]].
      * cbn [reportAll]. unfold bind at 1. rewrite R.
        unfold bind at 1. rewrite RA. reflexivity.
      * cbn. now rewrite Len.
      * now constructor.
      * rewrite Sent2, Sent. cbn. lia.
      * now rewrite Comments2.
Qed.

(** C7. With deduplication off, a run of [N] reports with one and the same
    fingerprint, each of whose issues the tracker creates, returns [N]
    results, all with [isDuplicate = false]: [N] issues are requested and no
    comment, and [report] is the fresh path whatever the cache holds, so the
    lookup is not run. *)
Theorem disabled_dedup_all_fresh m w rs h :
  cfgDeduplicate (config m) = false ->
  Forall (fun r => generateFaultHash r = h) rs ->
  (forall n, (n < length rs)%nat ->
     exists created,
       issueReplies w (length (issueRequests w) + n)
       = inr {| issue := inr (Some created) |}) ->
  (exists results m' w',
     reportAll rs (m, w) = (Returned results, (m', w')) /\
     length results = length rs /\
     Forall (fun res => isDuplicate res = false) results /\
     length (issueRequests w') = (length (issueRequests w) + length rs)%nat /\
     commentRequests w' = commentRequests w) /\
  (forall r cache w0,
     report r (withCache m cache, w0)
     = reportFresh (generateFaultHash r) r (withCache m cache, w0)).
Proof.
  intros D _ Up. split.
  - now apply reportAll_disabled.
  - intros r cache w0. now apply report_disabled.
Qed.

(** *** The lookup and the window *)

Lemma checkDuplicate_found m w h record s' :
  checkDuplicate h (m, w) = (Returned (Some record), s') ->
  faultCache m !! h = Some record /\
  nextTime w - lastSeen record <= cfgDedupeWindow (config m) /\
  s' = (m, tick w).
Proof.
  intros E. destruct (faultCache m !! h) as [stored|] eqn:L.
  - destruct (Z_le_gt_dec (nextTime w - lastSeen stored) (cfgDedupeWindow (config m)))
      as [Hle | Hgt].
    + rewrite (checkDuplicate_live _ _ _ _ L Hle) in E. inversion E; subst. auto.
    + rewrite (checkDuplicate_expired _ _ _ _ L Hgt) in E. discriminate.
  - rewrite (checkDuplicate_absent _ _ _ L) in E. discriminate.
Qed.

(** A record that is gone after [report] is the looked-up one, expired. *)
Lemma report_removes_only_expired m w r o m' w' k :
  report r (m, w) = (o, (m', w')) ->
  is_Some (faultCache m !! k) ->
  faultCache m' !! k = None ->
  k = generateFaultHash r /\
  cfgDeduplicate (config m) = true /\
  exists record,
    faultCache m !! k = Some record /\
    nextTime w - lastSeen record > cfgDedupeWindow (config m).
Proof.
  intros R [x Hx] Gone.
  destruct (dedupCheck_run m w (generateFaultHash r)) as (found & m1 & w1 & E & D).
  assert (Kept : forall c, faultCache m1 !! k = Some c ->
                           faultCache m' !! k = None -> False).
  { intros c Hc. destruct found as [existing|].
    - rewrite (report_duplicate_path _ _ _ _ _ _ E), reportDuplicate_run in R.
      inversion R; subst. cbn.
      destruct (decide (generateFaultHash r = k)) as [-> | Ne].
      + now rewrite lookup_insert_eq.
      + rewrite lookup_insert_ne by exact Ne. congruence.
    - rewrite (report_fresh_path _ _ _ _ _ E) in R.
      destruct (creation_cases w1) as [[created Cr] | [e F]].
      + destruct (reportFresh_ok m1 w1 (generateFaultHash r) r created Cr) as (input & _ & Q).
        rewrite Q in R. inversion R; subst. cbn.
        destruct (decide (generateFaultHash r = k)) as [-> | Ne].
        * now rewrite lookup_insert_eq.
        * rewrite lookup_insert_ne by exact Ne. congruence.
      + destruct (reportFresh_fail m1 w1 (generateFaultHash r) r e F) as (input & _ & Q).
        rewrite Q in R. inversion R; subst. congruence. }
  inversion D; subst; try (exfalso; eapply Kept; eassumption).
  destruct (decide (generateFaultHash r = k)) as [<- | Ne].
  - split; [reflexivity |]. split; [assumption |]. eauto.
  - exfalso. eapply (Kept x); [| exact Gone]. cbn.
    now rewrite lookup_delete_ne.
Qed.

(** C3. [checkDuplicate] returns a record only if the time it reads is
    within the window of the record's [lastSeen]; a stored record that is
    older is deleted and the lookup answers [null]; a report of that
    fingerprint then takes the fresh path: with deduplication on and the
    tracker creating the issue, it returns [isDuplicate = false] with the
    new ticket, sends a creation request and no comment, and stores a new
    record; and a record that [report] removes is the looked-up one, removed
    by the lookup because it had expired (the other steps of [report] only
    insert; [clearCache] is the caller's own reset). *)
Theorem lookup_is_lazy_eviction m w h :
  (forall record s',
     checkDuplicate h (m, w) = (Returned (Some record), s') ->
     nextTime w - lastSeen record <= cfgDedupeWindow (config m)) /\
  (forall record,
     faultCache m !! h = Some record ->
     nextTime w - lastSeen record > cfgDedupeWindow (config m) ->
     checkDuplicate h (m, w)
     = (Returned None, (withCache m (delete h (faultCache m)), tick w))) /\
  (forall r record created,
     generateFaultHash r = h ->
     cfgDeduplicate (config m) = true ->
     faultCache m !! h = Some record ->
     nextTime w - lastSeen record > cfgDedupeWindow (config m) ->
     CreationSucceeds w created ->
     exists res m' w' input,
       report r (m, w) = (Returned res, (m', w')) /\
       isDuplicate res = false /\
       resIssueId res = id created /\
       issueRequests w' = (issueRequests w ++ [input])%list /\
       commentRequests w' = commentRequests w /\
       faultCache m'
       = <[h := {| hash := h; issueId := id created; count := 1;
                   lastSeen := clock w (S (S (ticks w))) |}]> (faultCache m)) /\
  (forall r o m' w' k,
     report r (m, w) = (o, (m', w')) ->
     is_Some (faultCache m !! k) ->
     faultCache m' !! k = None ->
     k = generateFaultHash r /\
     cfgDeduplicate (config m) = true /\
     exists record,
       faultCache m !! k = Some record /\
       nextTime w - lastSeen record > cfgDedupeWindow (config m)).
Proof.
  split; [| split; [| split]].
  - intros record s' E. now destruct (checkDuplicate_found _ _ _ _ _ E) as (_ & Hle & _).
  - intros record. apply checkDuplicate_expired.
  - intros r record created <- D L Hgt Cr.
    assert (S1 : CreationSucceeds (tick w) created) by exact Cr.
    destruct (reportFresh_ok (withCache m (delete (generateFaultHash r) (faultCache m)))
                (tick w) (generateFaultHash r) r created S1) as (input & _ & Q).
    eexists _, _, _, input. split.
    + erewrite report_fresh_path; [exact Q |].
      rewrite dedupCheck_enabled by exact D. eapply checkDuplicate_expired; eassumption.
    + cbn. repeat split. apply insert_delete_eq.
  - intros r o m' w' k. apply report_removes_only_expired.
Qed.

End FaultFacts.

Section WebhookFacts.
Context {Pf : Platform}.

Implicit Types (hd : LinearWebhookHandler) (w : World) (sig : string).



Lemma truthyString_nonempty sig : sig <> "" -> truthyString (Some sig) = Some sig.
Proof.
  intros Ne. unfold truthyString. apply String.eqb_neq in Ne. now rewrite Ne.
Qed.



(** A signature of the right length that is not the expected one is the
    recognisable failure, answered with 401. *)
Lemma middleware_wrong_signature hd w payload sig secret :
  truthyString (signingSecret (whConfig hd)) = Some secret ->
  sig <> "" ->
  length (bufferFrom sig) = 64%nat ->
  bufferFrom sig <> bufferFrom (hmacSha256Hex secret (payloadToJson payload)) ->
  exists w',
    createWebhookMiddleware {| linearSignature := Some sig; reqBody := payload |} (hd, w)
    = (Returned {| status := 401; json := ErrorBody "Invalid signature" |}, (hd, w')).
Proof.
  intros Sec Ne Len Diff. eexists.
  unfold createWebhookMiddleware, tryCatch. cbn [linearSignature reqBody].
  unfold process. rewrite (truthyString_nonempty _ Ne).
  unfold verifySignature, timingSafeEqual, bind, getThis. cbn [fst snd].
  rewrite Sec, Len, bufferFrom_hmac. cbn [Nat.eqb].
  rewrite bool_decide_eq_false_2 by exact Diff. reflexivity.
Qed.


End WebhookFacts.

(** * Further properties of the fault manager *)

Section FaultRuns.
Context {Pf : Platform}.

Implicit Types (m : FaultManager) (w : World) (r : FaultReport) (h : string).

(** Every run of [report] is one of the three of [ReportRun]. *)
Lemma report_run m w r :
  exists o m' w', report r (m, w) = (o, (m', w')) /\ ReportRun m w r o m' w'.
Proof.
  destruct (dedupCheck_run m w (generateFaultHash r)) as (found & m1 & w1 & E & D).
  destruct (DedupCheck_tracker _ _ _ _ _ _ D) as [Ti Tc].
  destruct (DedupCheck_cache _ _ _ _ _ _ D) as [Cfg _].
  destruct found as [existing|].
  - assert (m1 = m /\ w1 = tick w) as [-> ->] by (inversion D; auto).
    eexists _, _, _. split.
    + rewrite (report_duplicate_path _ _ _ _ _ _ E). apply reportDuplicate_run.
    + apply (run_duplicate m w r existing D).
  - destruct (creation_cases w1) as [[created Cr] | [e F]].
    + destruct (reportFresh_ok m1 w1 (generateFaultHash r) r created Cr) as (input & Rq & Q).
      eexists _, _, _. split.
      * rewrite (report_fresh_path _ _ _ _ _ E). exact Q.
      * apply run_created; [exact D | unfold CreationSucceeds in *; congruence |].
        unfold RequestFor in *. now rewrite <- Cfg.
    + destruct (reportFresh_fail m1 w1 (generateFaultHash r) r e F) as (input & Rq & Q).
      eexists _, _, _. split.
      * rewrite (report_fresh_path _ _ _ _ _ E). exact Q.
      * apply run_failed; [exact D | | unfold RequestFor in *; now rewrite <- Cfg].
        destruct F as [e F | e F | F];
          [apply fails_rejected | apply fails_issue_rejected | apply fails_no_issue];
          congruence.
Qed.

Lemma report_inv m w r o m' w' :
  report r (m, w) = (o, (m', w')) -> ReportRun m w r o m' w'.
Proof.
  intros E. destruct (report_run m w r) as (o1 & m1 & w1 & E1 & R).
  rewrite E1 in E. now inversion E; subst.
Qed.

(** The lookup sends nothing to the tracker. *)
Lemma DedupCheck_requests m w h found m1 w1 :
  DedupCheck m w h found m1 w1 ->
  issueRequests w1 = issueRequests w /\ commentRequests w1 = commentRequests w /\
  clock w1 = clock w /\ logged w1 = logged w.
Proof. intros D. destruct D; repeat split. Qed.

(** What a report sends to the tracker. *)
Lemma report_calls m w r o m' w' :
  report r (m, w) = (o, (m', w')) ->
  (exists c res,
     commentRequests w' = (commentRequests w ++ [c])%list /\
     issueRequests w' = issueRequests w /\
     o = Returned res /\ isDuplicate res = true /\
     commentIssueId c = resIssueId res)
  \/
  (exists input,
     issueRequests w' = (issueRequests w ++ [input])%list /\
     commentRequests w' = commentRequests w /\
     RequestFor m r input /\
     forall res, o = Returned res -> isDuplicate res = false).
Proof.
  intros E. apply report_inv in E.
  destruct E as [existing D | m1 w1 created input D Cr Rq | m1 w1 e input D F Rq].
  - left. eexists _, _.
    destruct (nextCommentReply w); cbn; repeat split.
  - right. exists input.
    destruct (DedupCheck_requests _ _ _ _ _ _ D) as (Hi & Hc & _).
    cbn. rewrite Hi, Hc. split; [reflexivity |]. split; [reflexivity |].
    split; [exact Rq |]. intros res Hres. now inversion Hres.
  - right. exists input.
    destruct (DedupCheck_requests _ _ _ _ _ _ D) as (Hi & Hc & _).
    cbn. rewrite Hi, Hc. split; [reflexivity |]. split; [reflexivity |].
    split; [exact Rq | discriminate].
Qed.


(** *** Strings *)

Lemma append_nil_r (s : string) : s +:+ "" = s.
Proof.
  induction s as [| c s IH]; [reflexivity |].
  change (String c s +:+ "") with (String c (s +:+ "")). now rewrite IH.
Qed.

Lemma append_assoc (a b c : string) : (a +:+ b) +:+ c = a +:+ (b +:+ c).
Proof.
  induction a as [| x a IH]; [reflexivity |].
  change ((String x a +:+ b) +:+ c) with (String x ((a +:+ b) +:+ c)).
  now rewrite IH.
Qed.

Lemma length_append (a b : string) :
  String.length (a +:+ b) = (String.length a + String.length b)%nat.
Proof.
  induction a as [| x a IH]; [reflexivity |].
  change (String.length (String x a +:+ b)) with (S (String.length (a +:+ b))).
  now rewrite IH.
Qed.





(** *** Severity, title and priority *)

Lemma unlabelled_severity (c : Config) (sev : option string) :
  truthyString sev = None ->
  orString (option_map toUpperCase sev) "ERROR" = "ERROR" /\
  orString sev "error" = "error" /\
  getPriority c sev = cfgDefaultPriority c.
Proof.
  destruct sev as [v |]; cbn; [| auto].
  destruct (String.eqb_spec v "") as [-> | Ne]; [auto | discriminate].
Qed.

(** X3. A report without a severity (or with the empty string) is titled
    ERROR like an error, but its priority is the configured default
    priority, not the priority 2 of an error: the two differ as soon as the
    default priority is overridden. *)
Theorem unlabelled_fault_gets_default_priority m w r o m' w' input :
  truthyString (severity r) = None ->
  report r (m, w) = (o, (m', w')) ->
  issueRequests w' = (issueRequests w ++ [input])%list ->
  title input
  = "[" +:+ cfgAppName (config m) +:+ "] ERROR: " +:+ slice0 100 (message r) /\
  priority input = cfgDefaultPriority (config m).
Proof.
  intros Sev E Sent.
  destruct (unlabelled_severity (config m) _ Sev) as (Up & _ & Pr).
  destruct (report_calls _ _ _ _ _ _ E)
    as [(c & res & _ & Same & _) | (input' & Sent' & _ & Rq & _)].
  - rewrite Same in Sent. apply (f_equal (@length _)) in Sent.
    rewrite length_app in Sent. cbn in Sent. lia.
  - rewrite Sent' in Sent. apply app_inj_tail in Sent as [_ ->].
    destruct Rq as (T & _ & P & _). rewrite T, P, Up, Pr. split; reflexivity.
Qed.

(** X4. [reportError] files its issue as an error: whenever it sends a
    creation request, the request has priority 2, whatever the configured
    default priority is, and the title
    ['[app] ERROR: '] followed by the first 100 characters of the error's
    message. *)
Theorem reportError_files_as_error m w (error : ErrorValue) ctx o m' w' input :
  reportError error ctx (m, w) = (o, (m', w')) ->
  issueRequests w' = (issueRequests w ++ [input])%list ->
  priority input = 2 /\
  title input
  = "[" +:+ cfgAppName (config m) +:+ "] ERROR: " +:+ slice0 100 (errorMessage error).
Proof.
  unfold reportError. intros E Sent.
  destruct (report_calls _ _ _ _ _ _ E)
    as [(c & res & _ & Same & _) | (input' & Sent' & _ & Rq & _)].
  - rewrite Same in Sent. apply (f_equal (@length _)) in Sent.
    rewrite length_app in Sent. cbn in Sent. lia.
  - rewrite Sent' in Sent. apply app_inj_tail in Sent as [_ ->].
    destruct Rq as (T & _ & P & _). split; [exact P | exact T].
Qed.

(** *** The description *)

(** X5. For a report that has only a message, the description is the five
    header lines; an empty URL, user id or stack and a context or metadata
    object without keys count as absent.  The manager is left as it is and
    the clock is read once, for the timestamp line. *)
Theorem formatDescription_bare m w r :
  truthyString (reportUrl r) = None ->
  truthyString (userId r) = None ->
  truthyString (stack r) = None ->
  (forall c, context r = Some c -> objectKeys c = []) ->
  (forall c, metadata r = Some c -> objectKeys c = []) ->
  formatDescription r (m, w)
  = (Returned
       (joinLines
          [ "## Error Details";
            "**Message:** " +:+ message r;
            "**Severity:** " +:+ orString (severity r) "error";
            "**Environment:** " +:+ cfgEnvironment (config m);
            "**Timestamp:** " +:+ toISOString (nextTime w) ]),
     (m, tick w)).
Proof.
  intros U I S C M.
  unfold formatDescription, bind, getThis, newDate, ret. cbn [fst snd].
  rewrite U, I, S.
  assert (Hc : match context r with
               | Some c =>
                   if (0 <? length (objectKeys c))%nat
                   then [ newline +:+ "## Context"; "```json"; jsonStringify c; "```" ]
                   else []
               | None => []
               end = []).
  { destruct (context r) as [c |]; [| reflexivity]. now rewrite (C c eq_refl). }
  assert (Hm : match metadata r with
               | Some c =>
                   if (0 <? length (objectKeys c))%nat
                   then [ newline +:+ "## Metadata"; "```json"; jsonStringify c; "```" ]
                   else []
               | None => []
               end = []).
  { destruct (metadata r) as [c |]; [| reflexivity]. now rewrite (M c eq_refl). }
  rewrite Hc, Hm. reflexivity.
Qed.

(** *** Clearing the cache *)

(** X6. After [clearCache()], a report takes the fresh path whatever the
    cache held and however recently: if the tracker creates the issue, the
    result has [isDuplicate = false] and the new ticket, and the cache holds
    that one record. *)
Theorem clearCache_then_report_is_fresh m w r created :
  CreationSucceeds w created ->
  exists res m' w',
    (clearCache ;; report r) (m, w) = (Returned res, (m', w')) /\
    isDuplicate res = false /\
    resIssueId res = id created /\
    faultCache m'
    = {[ generateFaultHash r :=
           {| hash := generateFaultHash r; issueId := id created; count := 1;
              lastSeen := clock w (S (ticks w)) |} ]}.
Proof.
  intros Cr.
  assert (Miss : dedupCheck (generateFaultHash r) (withCache m ∅, w)
                 = (Returned None, (withCache m ∅, w))).
  { destruct (cfgDeduplicate (config m)) eqn:D.
    - rewrite dedupCheck_enabled by exact D. now apply checkDuplicate_absent.
    - now apply dedupCheck_disabled. }
  destruct (reportFresh_ok (withCache m ∅) w (generateFaultHash r) r created Cr)
    as (input & _ & Q).
  eexists _, _, _. split.
  - unfold bind at 1. unfold clearCache, updateCache, bind, getThis, setThis.
    cbn [fst snd]. rewrite (report_fresh_path _ _ _ _ _ Miss). exact Q.
  - cbn. repeat split.
Qed.

(** *** A recurring fault *)

(** A run of reports of a fault that the cache knows, each lookup within
    the window of the last stamp: all are duplicates of the cached ticket. *)
Lemma reportAll_duplicates h rs : forall m w existing k,
  cfgDeduplicate (config m) = true ->
  Forall (fun r => generateFaultHash r = h) rs ->
  faultCache m !! h = Some existing ->
  lastSeen existing = clock w k ->
  (k < ticks w <= S (S k))%nat ->
  (forall n, (k <= n)%nat ->
     clock w (S n) - clock w n <= cfgDedupeWindow (config m) /\
     clock w (S (S n)) - clock w n <= cfgDedupeWindow (config m)) ->
  exists results m' w' last,
    reportAll rs (m, w) = (Returned results, (m', w')) /\
    length results = length rs /\
    Forall (fun res => isDuplicate res = true /\ resIssueId res = issueId existing) results /\
    faultCache m' !! h = Some last /\
    issueId last = issueId existing /\
    count last = count existing + Z.of_nat (length rs) /\
    issueRequests w' = issueRequests w /\
    length (commentRequests w') = (length (commentRequests w) + length rs)%nat.
Proof.
  induction rs as [| r rest IH]; intros m w existing k D Same L Stamp Near Win.
  - exists [], m, w, existing.
    split; [reflexivity |]. split; [reflexivity |]. split; [constructor |].
    split; [exact L |]. split; [reflexivity |]. split; [cbn; lia |].
    split; [reflexivity | cbn; lia].
  - pose proof (Forall_inv Same) as Hr. pose proof (Forall_inv_tail Same) as Hrest.
    cbn in Hr. subst h.
    assert (Live : nextTime w - lastSeen existing <= cfgDedupeWindow (config m)).
    { unfold nextTime. rewrite Stamp.
      assert (ticks w = S k \/ ticks w = S (S k)) as [-> | ->] by lia;
        now apply (Win k). }
    assert (Chk : DedupCheck m w (generateFaultHash r) (Some existing) m (tick w)).
    { now apply check_live. }
    destruct (report_run m w r) as (o & m1 & w1 & E & R).
    assert (Hrun :
      exists res,
        o = Returned res /\ isDuplicate res = true /\ resIssueId res = issueId existing /\
        config m1 = config m /\
        faultCache m1 !! generateFaultHash r
        = Some {| hash := hash existing; issueId := issueId existing;
                  count := count existing + 1; lastSeen := clock w (S (ticks w)) |} /\
        clock w1 = clock w /\ ticks w1 = S (S (S (ticks w))) /\
        issueRequests w1 = issueRequests w /\
        length (commentRequests w1) = S (length (commentRequests w))).
    { destruct R as [existing' D' | m0 w0 created input D' _ _ | m0 w0 e input D' _ _].
      - assert (existing' = existing) as ->.
        { inversion D'; subst. congruence. }
        eexists. split; [reflexivity |]. split; [reflexivity |]. split; [reflexivity |].
        split; [reflexivity |]. split.
        { cbn. apply lookup_insert_eq. }
        destruct (nextCommentReply w); cbn; rewrite length_app; cbn;
          repeat split; lia.
      - exfalso. inversion D'; subst;
          first [congruence | assert (record = existing) as -> by congruence; lia].
      - exfalso. inversion D'; subst;
          first [congruence | assert (record = existing) as -> by congruence; lia]. }
    destruct Hrun as (res & -> & Dup & Id & Cfg & L1 & Clk & Tk & Ir & Cr).
    destruct (IH m1 w1
                {| hash := hash existing; issueId := issueId existing;
                   count := count existing + 1; lastSeen := clock w (S (ticks w)) |}
                (S (ticks w))) as
      (results & m2 & w2 & last & RA & Len & All & L2 & Id2 & Cnt & Ir2 & Cr2).
    + now rewrite Cfg.
    + exact Hrest.
    + exact L1.
    + cbn. now rewrite Clk.
    + rewrite Tk. lia.
    + intros n Hn. rewrite Clk, Cfg. apply Win. lia.
    + exists (res :: results), m2, w2, last.
      split; [| split; [| split; [| split; [| split; [| split; [| split]]]]]].
      * cbn [reportAll]. unfold bind at 1. rewrite E.
        unfold bind at 1. rewrite RA. reflexivity.
      * cbn. now rewrite Len.
      * constructor; [now split |]. exact All.
      * exact L2.
      * exact Id2.
      * rewrite Cnt. cbn [count length]. lia.
      * now rewrite Ir2.
      * rewrite Cr2, Cr. cbn. lia.
Qed.

(** X7. With deduplication on, a fault the cache does not know, reported
    [1 + N] times in a row with each clock reading within the window of the
    two before it, however long the whole run lasts: one issue is created,
    the first result has [isDuplicate = false], the [N] others are duplicates
    that carry its ticket, [N] comments are sent (whether or not the tracker
    takes them), and the record ends with the count [1 + N]. *)
Theorem recurring_fault_is_one_ticket m w r rs created :
  cfgDeduplicate (config m) = true ->
  faultCache m !! generateFaultHash r = None ->
  Forall (fun r' => generateFaultHash r' = generateFaultHash r) rs ->
  CreationSucceeds w created ->
  SlidingWindow w (cfgDedupeWindow (config m)) ->
  exists res results m' w' last,
    reportAll (r :: rs) (m, w) = (Returned (res :: results), (m', w')) /\
    isDuplicate res = false /\
    resIssueId res = id created /\
    length results = length rs /\
    Forall (fun res' => isDuplicate res' = true /\ resIssueId res' = id created) results /\
    faultCache m' !! generateFaultHash r = Some last /\
    issueId last = id created /\
    count last = 1 + Z.of_nat (length rs) /\
    length (issueRequests w') = S (length (issueRequests w)) /\
    length (commentRequests w') = (length (commentRequests w) + length rs)%nat.
Proof.
  intros D Absent Same Cr Win.
  destruct (reportFresh_ok m w (generateFaultHash r) r created Cr) as (input & _ & Q).
  assert (E : report r (m, w) = reportFresh (generateFaultHash r) r (m, w)).
  { apply report_fresh_path. rewrite dedupCheck_enabled by exact D.
    now apply checkDuplicate_absent. }
  rewrite Q in E.
  match type of E with _ = (_, (?m1, ?w1)) =>
    destruct (reportAll_duplicates (generateFaultHash r) rs m1 w1
                {| hash := generateFaultHash r; issueId := id created; count := 1;
                   lastSeen := clock w (S (ticks w)) |} (S (ticks w)))
      as (results & m2 & w2 & last & RA & Len & All & L2 & Id2 & Cnt & Ir2 & Cr2)
  end.
  - exact D.
  - exact Same.
  - cbn. apply lookup_insert_eq.
  - reflexivity.
  - cbn. lia.
  - intros n Hn. cbn. apply Win. lia.
  - eexists _, results, m2, w2, last.
    split; [| split; [| split; [| split; [| split; [| split; [| split; [| split; [| split]]]]]]]].
    + cbn [reportAll]. unfold bind at 1. rewrite E.
      unfold bind at 1. rewrite RA. reflexivity.
    + reflexivity.
    + reflexivity.
    + exact Len.
    + exact All.
    + exact L2.
    + exact Id2.
    + rewrite Cnt. cbn [count]. lia.
    + rewrite Ir2. cbn. rewrite length_app. cbn. lia.
    + rewrite Cr2. reflexivity.
Qed.

(** *** A collision of fingerprints *)

(** X8. The fingerprint joins the message and the first stack line with a
    colon and hashes the result, so it cannot tell where the message ends:
    a report with message [a] and first stack line [b:c] has the fingerprint
    of a report with message [a:b] and first stack line [c], whatever the
    digest function is. *)
Theorem fingerprint_separator_collision r1 r2 (a b c : string) :
  message r1 = a ->
  stackHead r1 = b +:+ ":" +:+ c ->
  message r2 = a +:+ ":" +:+ b ->
  stackHead r2 = c ->
  generateFaultHash r1 = generateFaultHash r2.
Proof.
  intros M1 S1 M2 S2. rewrite !generateFaultHash_content, M1, S1, M2, S2.
  f_equal. rewrite !append_assoc. reflexivity.
Qed.

(** *** The handlers built on [report] *)

(** X9. The global handler never throws, whatever the tracker does.  When
    the fault is new to the cache and the creation fails with [e], it
    returns all the same, the log gains the two lines of the failure, and
    the cache gains no record. *)
Theorem globalHandler_never_throws m w (error : ErrorValue) :
  (exists m' w', createGlobalHandler error (m, w) = (Returned tt, (m', w'))) /\
  (forall e,
     let r := {| message := errorMessage error; stack := errorStack error;
                 context := None; severity := Some "error";
                 userId := None; reportUrl := None; metadata := None |} in
     (cfgDeduplicate (config m) = false \/ faultCache m !! generateFaultHash r = None) ->
     CreationFails w e ->
     exists w',
       createGlobalHandler error (m, w) = (Returned tt, (m, w')) /\
       logged w'
       = (logged w
          ++ [(Error, "Failed to create fault issue: " +:+ thrownToString e);
              (Error, "Failed to report error to Linear: " +:+ thrownToString e)])%list).
Proof.
  split.
  - unfold createGlobalHandler, tryCatch, bind at 1.
    destruct (reportError error None (m, w)) as [[res | e] [m' w']]; eauto.
  - intros e r Fresh F.
    assert (Miss : dedupCheck (generateFaultHash r) (m, w) = (Returned None, (m, w))).
    { destruct Fresh as [Off | Absent].
      - now apply dedupCheck_disabled.
      - destruct (cfgDeduplicate (config m)) eqn:D.
        + rewrite dedupCheck_enabled by exact D. now apply checkDuplicate_absent.
        + now apply dedupCheck_disabled. }
    destruct (reportFresh_fail m w (generateFaultHash r) r e F) as (input & _ & Q).
    eexists. split.
    + unfold createGlobalHandler, tryCatch, bind at 1. unfold reportError. fold r.
      rewrite (report_fresh_path _ _ _ _ _ Miss), Q. reflexivity.
    + cbn. rewrite <- app_assoc. reflexivity.
Qed.

(** X10. The Express error handler answers every error with the status 500
    and the body [{ error: 'Internal server error' }] and never throws,
    whether the report became an issue, was a duplicate, or failed.  When
    the fault is new to the cache and the creation fails with [e], the log
    gains the two lines of the failure and the manager is as before. *)
Theorem expressErrorHandler_always_500 {Body : Type}
    (contextOf : option string -> Body -> JsObject)
    m w (error : ErrorValue) (req : ErrorRequest Body) :
  (exists m' w',
     expressErrorHandler contextOf error req (m, w)
     = (Returned {| status := 500; json := ErrorBody "Internal server error" |}, (m', w'))) /\
  (forall e,
     let r := {| message := errorMessage error; stack := errorStack error;
                 context := Some (contextOf (reqMethod req) (errBody req));
                 severity := Some "error"; userId := None;
                 reportUrl := reqUrl req; metadata := None |} in
     (cfgDeduplicate (config m) = false \/ faultCache m !! generateFaultHash r = None) ->
     CreationFails w e ->
     exists w',
       expressErrorHandler contextOf error req (m, w)
       = (Returned {| status := 500; json := ErrorBody "Internal server error" |}, (m, w')) /\
       logged w'
       = (logged w
          ++ [(Error, "Failed to create fault issue: " +:+ thrownToString e);
              (Error, "Failed to report error to Linear: " +:+ thrownToString e)])%list).
Proof.
  split.
  - unfold expressErrorHandler, tryCatch. unfold bind at 1. unfold bind at 1.
    match goal with |- context [report ?r (m, w)] =>
      destruct (report r (m, w)) as [[res | e] [m' w']]
    end; eauto.
  - intros e r Fresh F.
    assert (Miss : dedupCheck (generateFaultHash r) (m, w) = (Returned None, (m, w))).
    { destruct Fresh as [Off | Absent].
      - now apply dedupCheck_disabled.
      - destruct (cfgDeduplicate (config m)) eqn:D.
        + rewrite dedupCheck_enabled by exact D. now apply checkDuplicate_absent.
        + now apply dedupCheck_disabled. }
    destruct (reportFresh_fail m w (generateFaultHash r) r e F) as (input & _ & Q).
    eexists. split.
    + unfold expressErrorHandler, tryCatch. unfold bind at 1. unfold bind at 1.
      fold r. rewrite (report_fresh_path _ _ _ _ _ Miss), Q. reflexivity.
    + cbn. rewrite <- app_assoc. reflexivity.
Qed.

(** *** What a report leaves alone, and what the cache always satisfies *)

Lemma ReportRun_frame m w r o m' w' :
  ReportRun m w r o m' w' ->
  config m' = config m /\ clock w' = clock w /\
  issueReplies w' = issueReplies w /\ commentReplies w' = commentReplies w.
Proof.
  intros R.
  destruct R as [existing D | m1 w1 created input D _ _ | m1 w1 e input D _ _].
  - destruct (nextCommentReply w); repeat split.
  - destruct (DedupCheck_cache _ _ _ _ _ _ D) as [Cfg _].
    inversion D; subst; repeat split.
  - destruct (DedupCheck_cache _ _ _ _ _ _ D) as [Cfg _].
    inversion D; subst; repeat split.
Qed.

Lemma report_touches_own_record_only_aux m w r o m' w' :
  report r (m, w) = (o, (m', w')) ->
  forall k, k <> generateFaultHash r -> faultCache m' !! k = faultCache m !! k.
Proof.
  intros E k Ne. apply report_inv in E.
  destruct E as [existing D | m1 w1 created input D _ _ | m1 w1 e input D _ _].
  - cbn. now rewrite lookup_insert_ne by congruence.
  - cbn. rewrite lookup_insert_ne by congruence.
    inversion D; subst; try reflexivity. cbn. now rewrite lookup_delete_ne by congruence.
  - inversion D; subst; try reflexivity. cbn. now rewrite lookup_delete_ne by congruence.
Qed.

(** X23. A report reads and writes the record of its own fingerprint only:
    the record of every other fingerprint is after the report what it was
    before, whatever path the report took, and the configuration is never
    changed. *)
Theorem report_touches_own_record_only m w r o m' w' :
  report r (m, w) = (o, (m', w')) ->
  config m' = config m /\
  forall k, k <> generateFaultHash r -> faultCache m' !! k = faultCache m !! k.
Proof.
  intros E. split.
  - apply report_inv in E. now destruct (ReportRun_frame _ _ _ _ _ _ E).
  - now apply report_touches_own_record_only_aux with w o w'.
Qed.

(** X24. In the cache of a new manager, and after any number of reports and
    of calls of [clearCache], every record is filed under its own fingerprint
    and has a count of at least 1. *)
Theorem cache_stays_well_formed :
  (forall c, CacheWellFormed (newFaultManager c)) /\
  (forall m w r o m' w',
     CacheWellFormed m -> report r (m, w) = (o, (m', w')) -> CacheWellFormed m') /\
  (forall m w o m' w',
     clearCache (m, w) = (o, (m', w')) -> CacheWellFormed m').
Proof.
  split; [| split].
  - intros c k record L. cbn in L. now rewrite lookup_empty in L.
  - intros m w r o m' w' WF E k record L.
    destruct (decide (k = generateFaultHash r)) as [-> | Ne].
    + apply report_inv in E.
      destruct E as [existing D | m1 w1 created input D _ _ | m1 w1 e input D _ _].
      * cbn in L. rewrite lookup_insert_eq in L. injection L as <-. cbn.
        inversion D; subst.
        match goal with H : faultCache m !! _ = Some existing |- _ =>
          destruct (WF _ _ H) as [Hh Hc] end.
        split; [exact Hh | lia].
      * cbn in L. rewrite lookup_insert_eq in L. injection L as <-. cbn.
        split; [reflexivity | lia].
      * destruct (DedupCheck_cache _ _ _ _ _ _ D) as [_ Sub].
        apply (WF (generateFaultHash r)).
        eapply lookup_weaken; eassumption.
    + rewrite (report_touches_own_record_only_aux m w r o m' w' E k Ne) in L.
      now apply WF.
  - intros m w o m' w' E k record L.
    unfold clearCache, updateCache, bind, getThis, setThis in E. cbn in E.
    inversion E; subst. cbn in L. now rewrite lookup_empty in L.
Qed.

(** *** A run of reports of several faults *)

Lemma reportAll_marks rs : forall m w,
  cfgDeduplicate (config m) = true ->
  (forall k record, faultCache m !! k = Some record -> exists i, lastSeen record = clock w i) ->
  (forall i j, clock w j - clock w i <= cfgDedupeWindow (config m)) ->
  (forall n, exists created, issueReplies w n = inr {| issue := inr (Some created) |}) ->
  exists results m' w',
    reportAll rs (m, w) = (Returned results, (m', w')) /\
    map isDuplicate results = marks (dom (faultCache m)) (map generateFaultHash rs) /\
    dom (faultCache m') = list_to_set (map generateFaultHash rs) ∪ dom (faultCache m) /\
    length (issueRequests w')
    = (length (issueRequests w)
       + count_occ Bool.bool_dec (marks (dom (faultCache m)) (map generateFaultHash rs)) false)%nat /\
    length (commentRequests w')
    = (length (commentRequests w)
       + count_occ Bool.bool_dec (marks (dom (faultCache m)) (map generateFaultHash rs)) true)%nat.
Proof.
  induction rs as [| r rest IH]; intros m w D Stamped Spread Up.
  - exists [], m, w. cbn. repeat split; try lia. now rewrite (left_id_L ∅ (∪)).
  - destruct (report_run m w r) as (o & m1 & w1 & E & R).
    destruct (ReportRun_frame _ _ _ _ _ _ R) as (Cfg & Clk & Ir & _).
    assert (Step :
      exists res,
        o = Returned res /\
        isDuplicate res = bool_decide (generateFaultHash r ∈ dom (faultCache m)) /\
        dom (faultCache m1) = {[generateFaultHash r]} ∪ dom (faultCache m) /\
        (forall k record, faultCache m1 !! k = Some record ->
                          exists i, lastSeen record = clock w i) /\
        length (issueRequests w1)
        = (length (issueRequests w) + if isDuplicate res then 0 else 1)%nat /\
        length (commentRequests w1)
        = (length (commentRequests w) + if isDuplicate res then 1 else 0)%nat).
    { destruct R as [existing Chk | m0 w0 created input Chk _ _ | m0 w0 e input Chk F _].
      - inversion Chk; subst.
        match goal with H : faultCache m !! _ = Some existing |- _ => rename H into L end.
        eexists. split; [reflexivity |]. cbn [isDuplicate].
        split; [| split; [| split; [| split]]].
        + symmetry. apply bool_decide_eq_true_2. apply elem_of_dom. eauto.
        + cbn. rewrite dom_insert_L. reflexivity.
        + intros k record Lk. cbn in Lk.
          destruct (decide (generateFaultHash r = k)) as [<- | Ne].
          * rewrite lookup_insert_eq in Lk. injection Lk as <-. cbn. eauto.
          * rewrite lookup_insert_ne in Lk by exact Ne. eauto.
        + destruct (nextCommentReply w); cbn; lia.
        + destruct (nextCommentReply w); cbn; rewrite length_app; cbn; lia.
      - assert (Absent : faultCache m !! generateFaultHash r = None).
        { inversion Chk; subst; try congruence.
          match goal with
          | H : faultCache m !! _ = Some ?rec, G : _ > _ |- _ =>
              destruct (Stamped _ _ H) as [i Hi]; rewrite Hi in G;
              specialize (Spread i (ticks w)); unfold nextTime in G; lia
          end. }
        assert (m0 = m /\ w0 = w) as [-> ->].
        { inversion Chk; subst; auto; congruence. }
        eexists. split; [reflexivity |]. cbn [isDuplicate].
        split; [| split; [| split; [| split]]].
        + symmetry. apply bool_decide_eq_false_2. rewrite elem_of_dom, Absent.
          intros [? ?]. discriminate.
        + cbn. rewrite dom_insert_L. reflexivity.
        + intros k record Lk. cbn in Lk.
          destruct (decide (generateFaultHash r = k)) as [<- | Ne].
          * rewrite lookup_insert_eq in Lk. injection Lk as <-. cbn. eauto.
          * rewrite lookup_insert_ne in Lk by exact Ne. eauto.
        + cbn. rewrite length_app. cbn. lia.
        + cbn. lia.
      - exfalso. destruct (Up (length (issueRequests w))) as [created Cr].
        apply (creation_exclusive w created e); [exact Cr | exact F]. }
    destruct Step as (res & -> & Dup & Dom & Stamped1 & Li & Lc).
    destruct (IH m1 w1) as (results & m2 & w2 & RA & Marks & Dom2 & Li2 & Lc2).
    + now rewrite Cfg.
    + intros k record Lk. rewrite Clk. eauto.
    + intros i j. rewrite Clk, Cfg. apply Spread.
    + intros n. rewrite Ir. apply Up.
    + exists (res :: results), m2, w2.
      split; [| split; [| split; [| split]]].
      * cbn [reportAll]. unfold bind at 1. rewrite E.
        unfold bind at 1. rewrite RA. reflexivity.
      * cbn [map marks]. rewrite Marks, Dup, Dom. reflexivity.
      * rewrite Dom2, Dom. cbn [map list_to_set].
        rewrite (assoc_L (∪)). f_equal. apply (comm_L (∪)).
      * rewrite Li2, Li, Dom. cbn [map marks count_occ]. rewrite <- Dup.
        destruct (isDuplicate res); destruct (Bool.bool_dec _ _); try discriminate; lia.
      * rewrite Lc2, Lc, Dom. cbn [map marks count_occ]. rewrite <- Dup.
        destruct (isDuplicate res); destruct (Bool.bool_dec _ _); try discriminate; lia.
Qed.

(** X25. With deduplication on, for a run of reports of any faults in any
    order, read off a clock whose readings are all within the window of each
    other and from a cache stamped by that clock, with the tracker creating
    every issue: a result has [isDuplicate = true] exactly when its
    fingerprint was in the cache at the start or came earlier in the run;
    one issue is requested for each fingerprint met for the first time and
    one comment for each repeat; and the cache ends with the fingerprints it
    had and those of the run. *)
Theorem dedup_marks_repeats m w rs :
  cfgDeduplicate (config m) = true ->
  (forall k record, faultCache m !! k = Some record -> exists i, lastSeen record = clock w i) ->
  (forall i j, clock w j - clock w i <= cfgDedupeWindow (config m)) ->
  (forall n, exists created, issueReplies w n = inr {| issue := inr (Some created) |}) ->
  exists results m' w',
    reportAll rs (m, w) = (Returned results, (m', w')) /\
    map isDuplicate results = marks (dom (faultCache m)) (map generateFaultHash rs) /\
    dom (faultCache m') = list_to_set (map generateFaultHash rs) ∪ dom (faultCache m) /\
    length (issueRequests w')
    = (length (issueRequests w)
       + count_occ Bool.bool_dec (marks (dom (faultCache m)) (map generateFaultHash rs)) false)%nat /\
    length (commentRequests w')
    = (length (commentRequests w)
       + count_occ Bool.bool_dec (marks (dom (faultCache m)) (map generateFaultHash rs)) true)%nat.
Proof. intros. now apply reportAll_marks. Qed.

End FaultRuns.

(** * Further properties of the webhook handler *)

Section WebhookRuns.
Context {Pf : Platform}.

Implicit Types (hd : LinearWebhookHandler) (w : World) (sig : string).

(** The callbacks all run, each on the world the one before it left; one
    that throws costs a line in the log and nothing else. *)
Lemma runHandlers_settles hs (event : WebhookEvent) : forall hd w,
  runHandlers hs event (hd, w) = (Returned tt, (hd, fold_left (settled event) hs w)).
Proof.
  induction hs as [| h rest IH]; intros hd w; [reflexivity |].
  cbn [runHandlers fold_left]. unfold bind at 1, tryCatch, callHandler, settled.
  cbn [fst snd]. destruct (h event w) as [[[] | e] w1]; cbn; apply IH.
Qed.

(** What [process] does once the check is passed. *)
Lemma process_after_check hd w payload :
  (let event := eventOf payload in
   logger Info ("Processing webhook: " +:+ evType event +:+ "." +:+ evAction event) ;;
   this <- getThis ;;
   runHandlers (handlersFor this event) event) (hd, w)
  = (Returned tt, (hd, dispatched hd payload w)).
Proof.
  cbn zeta. unfold bind at 1, logger. cbn [fst snd].
  unfold bind at 1, getThis. cbn [fst snd].
  apply runHandlers_settles.
Qed.

Lemma process_unfold hd w payload signature :
  process payload signature (hd, w)
  = match (match truthyString signature with
           | Some sig =>
               valid <- verifySignature (payloadToJson payload) sig ;;
               if valid then ret tt else throw (newError "Invalid webhook signature")
           | None => ret tt
           end) (hd, w) with
    | (Returned _, (hd', w')) => (Returned tt, (hd', dispatched hd' payload w'))
    | (Threw e, s') => (Threw e, s')
    end.
Proof.
  unfold process. unfold bind at 1.
  destruct (truthyString signature) as [sig |].
  - destruct ((valid <- verifySignature (payloadToJson payload) sig ;;
               if valid then ret tt else throw (newError "Invalid webhook signature"))
                (hd, w)) as [[[] | e] [hd' w']]; [| reflexivity].
    apply process_after_check.
  - apply process_after_check.
Qed.

Lemma verdict_run hd w payload signature :
  (match truthyString signature with
   | Some sig =>
       valid <- verifySignature (payloadToJson payload) sig ;;
       if valid then ret tt else throw (newError "Invalid webhook signature")
   | None => ret tt
   end) (hd, w)
  = match verdict hd payload signature with
    | Accepted => (Returned tt, (hd, afterCheck hd signature w))
    | Invalid => (Threw (newError "Invalid webhook signature"), (hd, w))
    | Broken => (Threw lengthMismatch, (hd, w))
    end.
Proof.
  unfold verdict, afterCheck.
  destruct (truthyString signature) as [sig |]; [| reflexivity].
  unfold bind at 1, verifySignature. unfold bind at 1, getThis. cbn [fst snd].
  destruct (truthyString (signingSecret (whConfig hd))) as [secret |]; [| reflexivity].
  unfold timingSafeEqual.
  destruct (length (bufferFrom sig)
            =? length (bufferFrom (hmacSha256Hex secret (payloadToJson payload))))%nat;
    [| reflexivity].
  unfold ret.
  destruct (bool_decide (bufferFrom sig
                         = bufferFrom (hmacSha256Hex secret (payloadToJson payload))));
    reflexivity.
Qed.

Lemma process_run hd w payload signature :
  process payload signature (hd, w)
  = match verdict hd payload signature with
    | Accepted => (Returned tt, (hd, dispatched hd payload (afterCheck hd signature w)))
    | Invalid => (Threw (newError "Invalid webhook signature"), (hd, w))
    | Broken => (Threw lengthMismatch, (hd, w))
    end.
Proof.
  rewrite process_unfold, verdict_run.
  destruct (verdict hd payload signature); reflexivity.
Qed.

(** [process] when the signature or the secret is missing. *)
Lemma process_unverified hd w payload signature :
  truthyString signature = None \/ truthyString (signingSecret (whConfig hd)) = None ->
  process payload signature (hd, w)
  = (Returned tt, (hd, dispatched hd payload (afterCheck hd signature w))).
Proof.
  intros Skip. rewrite process_run. unfold verdict.
  destruct Skip as [-> | ->]; [reflexivity |].
  destruct (truthyString signature); reflexivity.
Qed.


(** X12. With a secret configured, a signature whose bytes are those of the
    hexadecimal HMAC-SHA256 of the JSON text of the payload under that secret
    is accepted: [process] returns after running the callbacks, and the
    middleware answers 200 with [{ success: true }]. *)
Theorem valid_signature_is_accepted hd w payload sig secret :
  truthyString (signingSecret (whConfig hd)) = Some secret ->
  sig <> "" ->
  bufferFrom sig = bufferFrom (hmacSha256Hex secret (payloadToJson payload)) ->
  process payload (Some sig) (hd, w) = (Returned tt, (hd, dispatched hd payload w)) /\
  createWebhookMiddleware {| linearSignature := Some sig; reqBody := payload |} (hd, w)
  = (Returned {| status := 200; json := SuccessTrue |}, (hd, dispatched hd payload w)).
Proof.
  intros Sec Ne Eq.
  assert (P : process payload (Some sig) (hd, w)
              = (Returned tt, (hd, dispatched hd payload w))).
  { rewrite process_run. unfold verdict, afterCheck.
    rewrite (truthyString_nonempty _ Ne), Sec, Eq, Nat.eqb_refl.
    rewrite bool_decide_eq_true_2 by reflexivity. reflexivity. }
  split; [exact P |].
  unfold createWebhookMiddleware, tryCatch. cbn [linearSignature reqBody].
  unfold bind at 1. rewrite P. reflexivity.
Qed.

(** X13. With a secret configured, a non-empty signature of the right byte
    length that is not the expected one makes [process] throw the error
    ['Invalid webhook signature'] before anything else happens: no callback
    has run and nothing is logged; the middleware logs the error and answers
    401 with [{ error: 'Invalid signature' }]. *)
Theorem wrong_signature_is_rejected hd w payload sig secret :
  truthyString (signingSecret (whConfig hd)) = Some secret ->
  sig <> "" ->
  length (bufferFrom sig) = 64%nat ->
  bufferFrom sig <> bufferFrom (hmacSha256Hex secret (payloadToJson payload)) ->
  process payload (Some sig) (hd, w)
  = (Threw (newError "Invalid webhook signature"), (hd, w)) /\
  createWebhookMiddleware {| linearSignature := Some sig; reqBody := payload |} (hd, w)
  = (Returned {| status := 401; json := ErrorBody "Invalid signature" |},
     (hd, writeLog Error "Webhook processing error: Error: Invalid webhook signature" w)).
Proof.
  intros Sec Ne Len Diff.
  assert (P : process payload (Some sig) (hd, w)
              = (Threw (newError "Invalid webhook signature"), (hd, w))).
  { rewrite process_run. unfold verdict.
    rewrite (truthyString_nonempty _ Ne), Sec, Len, bufferFrom_hmac. cbn [Nat.eqb].
    rewrite bool_decide_eq_false_2 by exact Diff. reflexivity. }
  split; [exact P |].
  unfold createWebhookMiddleware, tryCatch. cbn [linearSignature reqBody].
  unfold bind at 1. rewrite P. reflexivity.
Qed.


(** *** The registry *)

Lemma action_key_longer (t a : string) : t +:+ "." +:+ a <> t.
Proof.
  intros E. apply (f_equal String.length) in E.
  rewrite !length_append in E. cbn in E. lia.
Qed.

(** What [on] does to the lookups of [process]. *)
Lemma on_run hd w (eventType : string) (h : WebhookEventHandler) :
  exists hd',
    on eventType h (hd, w) = (Returned tt, (hd', w)) /\
    whConfig hd' = whConfig hd /\
    forall event : WebhookEvent,
      let added (key : string) := if decide (key = eventType) then [h] else [] in
      handlersFor hd' event
      = ((default [] (handlers hd !! evType event) ++ added (evType event))
         ++ (default [] (handlers hd !! (evType event +:+ "." +:+ evAction event))
             ++ added (evType event +:+ "." +:+ evAction event))
         ++ (default [] (handlers hd !! "*") ++ added "*"))%list.
Proof.
  unfold on, bind, getThis, setThis. cbn [fst snd].
  eexists. split; [reflexivity |]. split; [reflexivity |].
  intros event. cbn zeta. unfold handlersFor. cbn [handlers].
  assert (L : forall key,
             default [] (<[eventType := (default [] (handlers hd !! eventType) ++ [h])%list]>
                           (handlers hd) !! key)
             = (default [] (handlers hd !! key)
                ++ (if decide (key = eventType) then [h] else []))%list).
  { intros key. destruct (decide (key = eventType)) as [-> | Ne].
    - now rewrite lookup_insert_eq.
    - rewrite lookup_insert_ne by congruence. now rewrite app_nil_r. }
  now rewrite !L.
Qed.

(** X15. [on(eventType, handler)] adds the callback at the end of the list
    kept under [eventType] and touches nothing else.  So for an event,
    the callback joins each of the three lookups of [process] (the type, the
    type.action, the wildcard) whose key is [eventType]: a callback under
    ['*'] runs once for every event, and twice for an event whose type is
    itself ['*']. *)
Theorem on_registers hd w (eventType : string) (h : WebhookEventHandler) :
  exists hd',
    on eventType h (hd, w) = (Returned tt, (hd', w)) /\
    whConfig hd' = whConfig hd /\
    forall event : WebhookEvent,
      let added (key : string) := if decide (key = eventType) then [h] else [] in
      handlersFor hd' event
      = ((default [] (handlers hd !! evType event) ++ added (evType event))
         ++ (default [] (handlers hd !! (evType event +:+ "." +:+ evAction event))
             ++ added (evType event +:+ "." +:+ evAction event))
         ++ (default [] (handlers hd !! "*") ++ added "*"))%list.
Proof. apply on_run. Qed.

(** X16. [removeAllListeners(eventType)] with a non-empty [eventType]
    silences the lookups of [process] under that key and no other; without
    an argument, or with the empty string, it silences every lookup: no
    callback runs for any event. *)
Theorem removeAllListeners_silences hd w (eventType : option string) :
  exists hd',
    removeAllListeners eventType (hd, w) = (Returned tt, (hd', w)) /\
    whConfig hd' = whConfig hd /\
    forall event : WebhookEvent,
      let kept (key : string) :=
        match truthyString eventType with
        | None => []
        | Some t => if decide (key = t) then [] else default [] (handlers hd !! key)
        end in
      handlersFor hd' event
      = (kept (evType event)
         ++ kept (evType event +:+ "." +:+ evAction event)
         ++ kept "*")%list.
Proof.
  unfold removeAllListeners, bind, getThis, setThis. cbn [fst snd].
  destruct (truthyString eventType) as [t |].
  - eexists. split; [reflexivity |]. split; [reflexivity |].
    intros event. cbn zeta. unfold handlersFor. cbn [handlers].
    assert (L : forall key,
               default [] (delete t (handlers hd) !! key)
               = if decide (key = t) then [] else default [] (handlers hd !! key)).
    { intros key. destruct (decide (key = t)) as [-> | Ne].
      - now rewrite lookup_delete_eq.
      - now rewrite lookup_delete_ne by congruence. }
    now rewrite !L.
  - eexists. split; [reflexivity |]. split; [reflexivity |].
    intros event. cbn zeta. unfold handlersFor. cbn [handlers].
    now rewrite !lookup_empty.
Qed.

(** X17. Registering a callback under a key the registry does not have and
    then removing the listeners of that key gives back the handler as it
    was, provided the key is not the empty string (for which the removal
    clears the whole registry). *)
Theorem on_then_removeAllListeners hd w (eventType : string) (h : WebhookEventHandler) :
  eventType <> "" ->
  handlers hd !! eventType = None ->
  (on eventType h ;; removeAllListeners (Some eventType)) (hd, w) = (Returned tt, (hd, w)).
Proof.
  intros Ne Absent.
  unfold bind at 1. unfold on, removeAllListeners, bind, getThis, setThis.
  cbn [fst snd]. rewrite (truthyString_nonempty _ Ne). cbn [handlers whConfig].
  rewrite delete_insert_eq, delete_id by exact Absent.
  now destruct hd.
Qed.

(** X18. On a handler with an empty registry, a callback registered with
    [on] under a type other than ['*'] runs exactly once for an event of that
    type that passes the check: the world after [process] is the one the
    callback left (plus a log line if it threw), after the line that
    announces the event. *)
Theorem registered_handler_runs_once (c : WebhookConfig) w payload signature
    (h : WebhookEventHandler) :
  type payload <> "*" ->
  verdict (newWebhookHandler c) payload signature = Accepted ->
  exists hd',
    (on (type payload) h ;; process payload signature) (newWebhookHandler c, w)
    = (Returned tt,
       (hd',
        settled (eventOf payload)
          (writeLog Info ("Processing webhook: " +:+ type payload +:+ "." +:+ action payload)
             (afterCheck (newWebhookHandler c) signature w))
          h)).
Proof.
  intros NotAny Ok.
  destruct (on_run (newWebhookHandler c) w (type payload) h)
    as (hd' & On & Cfg & Lists).
  exists hd'. unfold bind at 1. rewrite On, process_run.
  assert (V : verdict hd' payload signature = Accepted).
  { unfold verdict in *. now rewrite Cfg. }
  rewrite V. unfold dispatched. rewrite (Lists (eventOf payload)).
  cbn [handlers newWebhookHandler evType evAction eventOf]. rewrite !lookup_empty.
  cbn [default app].
  destruct (decide (type payload = type payload)) as [_ | Ne]; [| contradiction].
  destruct (decide (type payload +:+ "." +:+ action payload = type payload)) as [E | _];
    [now apply action_key_longer in E |].
  destruct (decide ("*" = type payload)) as [E | _]; [congruence |].
  cbn [app fold_left]. unfold afterCheck. now rewrite Cfg.
Qed.

(** X26. A callback registered with [onAny] is run for every event that
    [process] dispatches, whatever its type and action, and it is the last
    one to run. *)
Theorem onAny_hears_everything hd w (h : WebhookEventHandler) :
  exists hd',
    onAny h (hd, w) = (Returned tt, (hd', w)) /\
    forall event : WebhookEvent,
      exists before, handlersFor hd' event = (before ++ [h])%list.
Proof.
  destruct (on_run hd w "*" h) as (hd' & On & _ & Lists).
  exists hd'. split; [exact On |].
  intros event. rewrite (Lists event).
  destruct (decide ("*" = "*")) as [_ | Ne]; [| contradiction].
  eexists. rewrite !app_assoc. reflexivity.
Qed.

End WebhookRuns.

(** * Properties of the unified client *)

Section ClientRuns.
Context {Pf : Platform}.

Implicit Types (cl : LinearClient) (w : World) (o : LinearClientOptions).

(** X19. The [faults] getter of a new client returns a manager exactly when
    the options have a [faults] section and a non-empty API key or access
    token; otherwise it throws ['Fault manager not configured...'].  The
    manager it returns has an empty cache. *)
Theorem faults_needs_credentials o w :
  let configured :=
    is_Some (optFaults o) /\
    (is_Some (truthyString (optApiKey o)) \/ is_Some (truthyString (optAccessToken o))) in
  (configured ->
   exists m, faults (newLinearClient o, w) = (Returned m, (newLinearClient o, w)) /\
             faultCache m = ∅) /\
  (~ configured ->
   faults (newLinearClient o, w)
   = (Threw (newError "Fault manager not configured. Provide faults config and credentials."),
      (newLinearClient o, w))).
Proof.
  intros configured. unfold configured, faults, bind, getThis. cbn [fst snd].
  assert (M : faultManager (newLinearClient o)
              = match optFaults o with
                | Some f =>
                    match truthyString (optApiKey o) with
                    | Some key => Some (newFaultManager (withAccessToken f key))
                    | None =>
                        match truthyString (optAccessToken o) with
                        | Some token => Some (newFaultManager (withAccessToken f token))
                        | None => None
                        end
                    end
                | None => None
                end) by reflexivity.
  rewrite M. clear M.
  destruct (optFaults o) as [f |];
    destruct (truthyString (optApiKey o)) as [k |];
    destruct (truthyString (optAccessToken o)) as [t |];
    (split; intros C;
     [ first [ eexists; split; reflexivity
             | exfalso; destruct C as [[? ?] [[? ?] | [? ?]]]; discriminate ]
     | first [ reflexivity | exfalso; apply C; split; eauto ] ]).
Qed.


(** X21. A client built without [webhook] options still hands out a webhook
    handler, created on the first use of [webhooks] and kept; that handler
    has no signing secret, so it processes every payload whatever signature
    comes with it. *)
Theorem default_webhooks_verify_nothing o w payload signature :
  optWebhook o = None ->
  exists hd cl',
    webhooks (newLinearClient o, w) = (Returned hd, (cl', w)) /\
    webhooks (cl', w) = (Returned hd, (cl', w)) /\
    forall w0,
      process payload signature (hd, w0)
      = (Returned tt, (hd, dispatched hd payload (afterCheck hd signature w0))).
Proof.
  intros None_.
  assert (H0 : webhookHandler (newLinearClient o) = None).
  { cbn. now rewrite None_. }
  assert (H1 : optWebhook (options (newLinearClient o)) = None) by exact None_.
  unfold webhooks, bind, getThis, setThis, ret. cbn [fst snd].
  rewrite H0, H1. cbn [default webhookHandler].
  eexists _, _. split; [reflexivity |]. split; [reflexivity |].
  intros w0. apply process_unverified. right. reflexivity.
Qed.

(** X22. [LinearClient.createIssue] without an SDK throws
    ['Linear SDK not initialized...'] and sends nothing.  With an SDK it
    sends the request as given and returns the id, identifier and URL of the
    created issue; it throws what the tracker rejects with, and
    ['Issue creation failed'] when the tracker reports no issue.  It never
    logs and never touches the client. *)
Theorem clientCreateIssue_outcomes cl w (input : IssueCreateInput) :
  (sdk cl = None ->
   clientCreateIssue input (cl, w)
   = (Threw (newError "Linear SDK not initialized. Provide apiKey or accessToken."),
      (cl, w))) /\
  (is_Some (sdk cl) ->
   (forall created,
      CreationSucceeds w created ->
      clientCreateIssue input (cl, w) = (Returned created, (cl, sendIssue input w))) /\
   (forall e,
      nextIssueReply w = inl e \/ nextIssueReply w = inr {| issue := inl e |} ->
      clientCreateIssue input (cl, w) = (Threw e, (cl, sendIssue input w))) /\
   (nextIssueReply w = inr {| issue := inr None |} ->
    clientCreateIssue input (cl, w)
    = (Threw (newError "Issue creation failed"), (cl, sendIssue input w)))).
Proof.
  unfold clientCreateIssue, api. split.
  - intros E. unfold bind at 1, bind at 1, getThis. cbn [fst snd]. now rewrite E.
  - intros [s E]. split; [| split].
    + intros created Cr. unfold CreationSucceeds in Cr.
      unfold bind at 1, bind at 1, getThis. cbn [fst snd]. rewrite E.
      unfold ret at 1. unfold bind at 1, createIssue. cbn [fst snd]. rewrite Cr.
      unfold bind at 1, awaitIssue. cbn [issue]. unfold ret at 1.
      now destruct created.
    + intros e F.
      unfold bind at 1, bind at 1, getThis. cbn [fst snd]. rewrite E.
      unfold ret at 1. unfold bind at 1, createIssue. cbn [fst snd].
      destruct F as [F | F]; unfold nextIssueReply in F |- *; rewrite F; reflexivity.
    + intros F.
      unfold bind at 1, bind at 1, getThis. cbn [fst snd]. rewrite E.
      unfold ret at 1. unfold bind at 1, createIssue. cbn [fst snd].
      unfold nextIssueReply in F |- *. rewrite F. reflexivity.
Qed.

End ClientRuns.

(** * The theorems at concrete inputs *)

Section Witnesses.
Import Sample.

Lemma dedup_within_window_witness :
  exists res1 s1 res2 s2,
    report duplicateError (start dedupeConfig steadyClock trackerUp commentsUp)
    = (Returned res1, s1) /\
    report duplicateErrorAgain s1 = (Returned res2, s2) /\
    isDuplicate res1 = false /\
    isDuplicate res2 = true /\
    resIssueId res2 = resIssueId res1.
Proof.
  apply (dedup_within_window (Pf := platform) (newFaultManager dedupeConfig)
           (startWorld steadyClock trackerUp commentsUp)
           duplicateError duplicateErrorAgain testIssue
           (newFaultManager dedupeConfig)
           (startWorld steadyClock trackerUp commentsUp)).
  - reflexivity.
  - reflexivity.
  - reflexivity.
  - reflexivity.
  - vm_compute. discriminate.
Defined.

Lemma fingerprint_deterministic_witness :
  message duplicateError = message duplicateErrorAgain /\
  option_map firstLine (stack duplicateError)
  = option_map firstLine (stack duplicateErrorAgain) /\
  severity duplicateError <> severity duplicateErrorAgain /\
  generateFaultHash duplicateError = generateFaultHash duplicateErrorAgain.
Proof.
  split; [reflexivity |]. split; [reflexivity |]. split; [discriminate |].
  apply (fingerprint_deterministic (Pf := platform) duplicateError duplicateErrorAgain);
    reflexivity.
Defined.

(** After the window has passed, the same fault is reported afresh. *)
Lemma lookup_is_lazy_eviction_witness :
  let s := afterFirst jumpingClock commentsUp in
  faultCache (fst s) !! generateFaultHash duplicateErrorAgain = Some firstRecord /\
  nextTime (snd s) - lastSeen firstRecord > 60000 /\
  exists res s',
    report duplicateErrorAgain s = (Returned res, s') /\
    isDuplicate res = false /\
    commentRequests (snd s') = [].
Proof.
  intros s.
  assert (L : faultCache (fst s) !! generateFaultHash duplicateErrorAgain = Some firstRecord)
    by reflexivity.
  assert (X : nextTime (snd s) - lastSeen firstRecord > cfgDedupeWindow (config (fst s)))
    by reflexivity.
  split; [exact L |]. split; [exact X |].
  destruct (lookup_is_lazy_eviction (Pf := platform) (fst s) (snd s)
              (generateFaultHash duplicateErrorAgain)) as (_ & _ & Fresh & _).
  destruct (Fresh duplicateErrorAgain firstRecord testIssue eq_refl eq_refl L X eq_refl)
    as (res & m' & w' & input & R & Dup & _ & _ & Comments & _).
  exists res, (m', w'). split; [exact R |]. split; [exact Dup | exact Comments].
Defined.

Lemma comment_failure_is_swallowed_witness :
  let s := afterFirst steadyClock commentsDown in
  nextCommentReply (snd s) = inl (newError "Rate limited") /\
  exists res m' w',
    report duplicateErrorAgain s = (Returned res, (m', w')) /\
    isDuplicate res = true /\
    resIssueId res = "issue-123" /\
    faultCache m' !! generateFaultHash duplicateErrorAgain
    = Some {| hash := "Duplicate error:Error: Duplicate"; issueId := "issue-123";
              count := 2; lastSeen := 3000 |}.
Proof.
  intros s. split; [reflexivity |].
  destruct (comment_failure_is_swallowed (Pf := platform) (fst s) (snd s)
              duplicateErrorAgain firstRecord (newError "Rate limited"))
    as (res & m' & w' & R & Dup & Id & Cache & _).
  - reflexivity.
  - reflexivity.
  - vm_compute. discriminate.
  - reflexivity.
  - exists res, m', w'. split; [exact R |]. split; [exact Dup |]. split; [exact Id |].
    rewrite Cache. apply lookup_insert_eq.
Defined.


Lemma priority_mapping_witness :
  let cfg := config (newFaultManager plainConfig) in
  getPriority cfg (Some "critical") = 1 /\
  getPriority cfg (Some "info") = 2.
Proof.
  intros cfg.
  destruct (priority_mapping plainConfig) as (Critical & _ & _ & Other & _ & Default & _).
  split; [exact Critical |].
  fold cfg in Other, Default.
  rewrite Other by discriminate. apply Default. reflexivity.
Defined.

Lemma disabled_dedup_all_fresh_witness :
  exists results s',
    reportAll [duplicateError; duplicateErrorAgain; duplicateError]
      (start plainConfig steadyClock trackerUp commentsUp)
    = (Returned results, s') /\
    length results = 3%nat /\
    Forall (fun res => isDuplicate res = false) results.
Proof.
  destruct (disabled_dedup_all_fresh (Pf := platform) (newFaultManager plainConfig)
              (startWorld steadyClock trackerUp commentsUp)
              [duplicateError; duplicateErrorAgain; duplicateError]
              "Duplicate error:Error: Duplicate")
    as [(results & m' & w' & R & Len & Fresh & _) _].
  - reflexivity.
  - repeat constructor.
  - intros n _. exists testIssue. reflexivity.
  - exists results, (m', w'). split; [exact R |]. split; [exact Len | exact Fresh].
Defined.

(** The duplicate's URL is built from the ticket id; the tracker's own URL of
    the ticket is another one. *)
Lemma duplicate_envelope_witness :
  let s := afterFirst steadyClock commentsUp in
  exists res s',
    report duplicateErrorAgain s = (Returned res, s') /\
    isDuplicate res = true /\
    resIdentifier res = "duplicate" /\
    resUrl res = "https://linear.app/issue/issue-123" /\
    resUrl res <> url testIssue.
Proof.
  intros s.
  pose (res := {| resIssueId := "issue-123"; resIdentifier := "duplicate";
                  resUrl := "https://linear.app/issue/issue-123";
                  isDuplicate := true |}).
  assert (R : report duplicateErrorAgain (fst s, snd s)
              = (Returned res, snd (report duplicateErrorAgain s))) by reflexivity.
  destruct (duplicate_envelope (Pf := platform) _ _ _ _ _ R eq_refl)
    as (cached & L & _ & Ident & Url).
  exists res, (snd (report duplicateErrorAgain s)).
  split; [exact R |]. split; [reflexivity |]. split; [exact Ident |].
  split; [reflexivity | discriminate].
Defined.

Lemma disabled_dedup_still_caches_witness :
  let s := start plainConfig steadyClock trackerUp commentsUp in
  exists res m' w',
    report duplicateError s = (Returned res, (m', w')) /\
    isDuplicate res = false /\
    faultCache m' !! generateFaultHash duplicateError = Some firstRecord.
Proof.
  intros s.
  destruct (disabled_dedup_still_caches (Pf := platform) (fst s) (snd s)
              duplicateError testIssue)
    as (res & m' & w' & R & Dup & Cache & _).
  - reflexivity.
  - reflexivity.
  - exists res, m', w'. split; [exact R |]. split; [exact Dup |].
    rewrite Cache. apply lookup_insert_eq.
Defined.



End Witnesses.

(** * The further properties at concrete inputs *)

Section MoreWitnesses.
Import Sample.



Lemma unlabelled_fault_gets_default_priority_witness :
  let s := start lowPriorityConfig steadyClock trackerUp commentsUp in
  let run := report bareReport s in
  exists input,
    issueRequests (snd (snd run)) = [input] /\
    title input = "[TestApp] ERROR: Test error" /\
    priority input = 4.
Proof.
  intros s run.
  pose (input := hd someInput (issueRequests (snd (snd run)))).
  assert (Sent : issueRequests (snd (snd run)) = (issueRequests (snd s) ++ [input])%list)
    by reflexivity.
  destruct (unlabelled_fault_gets_default_priority (Pf := platform) (fst s) (snd s)
              bareReport (fst run) (fst (snd run)) (snd (snd run)) input
              eq_refl eq_refl Sent) as (T & P).
  exists input. split; [exact Sent |]. split; [exact T | exact P].
Defined.

Lemma reportError_files_as_error_witness :
  let s := start lowPriorityConfig steadyClock trackerUp commentsUp in
  let run := reportError (Pf := platform) boom None s in
  exists input,
    issueRequests (snd (snd run)) = [input] /\
    priority input = 2 /\
    title input = "[TestApp] ERROR: Test error".
Proof.
  intros s run.
  pose (input := hd someInput (issueRequests (snd (snd run)))).
  assert (Sent : issueRequests (snd (snd run)) = (issueRequests (snd s) ++ [input])%list)
    by reflexivity.
  destruct (reportError_files_as_error (Pf := platform) (fst s) (snd s) boom None
              (fst run) (fst (snd run)) (snd (snd run)) input eq_refl Sent) as (P & T).
  exists input. split; [exact Sent |]. split; [exact P | exact T].
Defined.

Lemma formatDescription_bare_witness :
  let s := start lowPriorityConfig steadyClock trackerUp commentsUp in
  fst (formatDescription bareReport s)
  = Returned
      (joinLines
         [ "## Error Details"; "**Message:** Test error"; "**Severity:** error";
           "**Environment:** test"; "**Timestamp:** 0" ]).
Proof.
  intros s.
  change (formatDescription bareReport s)
    with (formatDescription bareReport (fst s, snd s)).
  rewrite (formatDescription_bare (Pf := platform) (fst s) (snd s) bareReport).
  - reflexivity.
  - reflexivity.
  - reflexivity.
  - reflexivity.
  - intros c E. injection E as <-. reflexivity.
  - intros c E. discriminate E.
Defined.

Lemma clearCache_then_report_is_fresh_witness :
  let s := afterFirst steadyClock commentsUp in
  faultCache (fst s) !! generateFaultHash duplicateErrorAgain = Some firstRecord /\
  exists res s',
    (clearCache ;; report duplicateErrorAgain) s = (Returned res, s') /\
    isDuplicate res = false.
Proof.
  intros s. split; [reflexivity |].
  destruct (clearCache_then_report_is_fresh (Pf := platform) (fst s) (snd s)
              duplicateErrorAgain testIssue eq_refl)
    as (res & m' & w' & R & Dup & _).
  exists res, (m', w'). split; [exact R | exact Dup].
Defined.

Lemma recurring_fault_is_one_ticket_witness :
  exists results s',
    reportAll [duplicateError; duplicateErrorAgain; duplicateError; duplicateErrorAgain]
      (start dedupeConfig steadyClock trackerUp commentsDown)
    = (Returned results, s') /\
    map isDuplicate results = [false; true; true; true] /\
    (exists last,
       faultCache (fst s') !! generateFaultHash duplicateError = Some last /\
       count last = 4) /\
    length (issueRequests (snd s')) = 1%nat /\
    length (commentRequests (snd s')) = 3%nat.
Proof.
  destruct (recurring_fault_is_one_ticket (Pf := platform)
              (newFaultManager dedupeConfig)
              (startWorld steadyClock trackerUp commentsDown)
              duplicateError [duplicateErrorAgain; duplicateError; duplicateErrorAgain]
              testIssue)
    as (res & results & m' & w' & last & R & Dup & _ & Len & All & L & _ & Cnt & Ir & Cr).
  - reflexivity.
  - reflexivity.
  - repeat constructor.
  - reflexivity.
  - intros n _. cbn. unfold steadyClock. lia.
  - exists (res :: results), (m', w').
    split; [exact R |]. split; [| split; [| split]].
    + destruct results as [| r1 [| r2 [| r3 [| r4 rest]]]]; try discriminate Len.
      inversion All as [| ? ? [D1 _] All1]; subst.
      inversion All1 as [| ? ? [D2 _] All2]; subst.
      inversion All2 as [| ? ? [D3 _] _]; subst.
      cbn. now rewrite Dup, D1, D2, D3.
    + exists last. split; [exact L | exact Cnt].
    + exact Ir.
    + exact Cr.
Defined.

Lemma fingerprint_separator_collision_witness :
  message colonInStack <> message colonInMessage /\
  stackHead colonInStack <> stackHead colonInMessage /\
  generateFaultHash colonInStack = generateFaultHash colonInMessage.
Proof.
  split; [discriminate |]. split; [discriminate |].
  apply (fingerprint_separator_collision (Pf := platform) colonInStack colonInMessage
           "Timeout" "connect" " refused"); reflexivity.
Defined.

Lemma globalHandler_never_throws_witness :
  let s := start dedupeConfig steadyClock trackerDown commentsUp in
  exists w',
    createGlobalHandler (Pf := platform) boom s = (Returned tt, (fst s, w')) /\
    logged w'
    = [(Error, "Failed to create fault issue: Error: Network error");
       (Error, "Failed to report error to Linear: Error: Network error")].
Proof.
  intros s.
  destruct (globalHandler_never_throws (Pf := platform) (fst s) (snd s) boom) as [_ Fails].
  destruct (Fails (newError "Network error")) as (w' & R & Log).
  - right. reflexivity.
  - apply fails_rejected. reflexivity.
  - exists w'. split; [exact R | exact Log].
Defined.


Lemma valid_signature_is_accepted_witness :
  let s := (securedHandler, startWorld steadyClock trackerUp commentsUp) in
  fst (createWebhookMiddleware {| linearSignature := Some digits64; reqBody := issuePayload |} s)
  = Returned {| status := 200; json := SuccessTrue |}.
Proof.
  intros s.
  destruct (valid_signature_is_accepted (Pf := platform) (fst s) (snd s) issuePayload
              digits64 "test-secret") as [_ M].
  - reflexivity.
  - discriminate.
  - reflexivity.
  - change s with (fst s, snd s). now rewrite M.
Defined.

Lemma wrong_signature_is_rejected_witness :
  let s := (securedHandler, startWorld steadyClock trackerUp commentsUp) in
  process issuePayload (Some wrongSignature) s
  = (Threw (newError "Invalid webhook signature"), s) /\
  fst (createWebhookMiddleware {| linearSignature := Some wrongSignature; reqBody := issuePayload |} s)
  = Returned {| status := 401; json := ErrorBody "Invalid signature" |}.
Proof.
  intros s.
  destruct (wrong_signature_is_rejected (Pf := platform) (fst s) (snd s) issuePayload
              wrongSignature "test-secret") as [P M].
  - reflexivity.
  - discriminate.
  - reflexivity.
  - vm_compute. discriminate.
  - split.
    + exact P.
    + change s with (fst s, snd s). now rewrite M.
Defined.

Lemma on_then_removeAllListeners_witness :
  let s := (securedHandler, startWorld steadyClock trackerUp commentsUp) in
  (on "Issue" noting ;; removeAllListeners (Some "Issue")) s = (Returned tt, s) /\
  handlers (fst (snd ((on "" noting ;; on "Issue" noting ;; removeAllListeners (Some "")) s)))
  = ∅.
Proof.
  intros s. split.
  - apply (on_then_removeAllListeners (Pf := platform) (fst s) (snd s) "Issue" noting).
    + discriminate.
    + reflexivity.
  - reflexivity.
Defined.

Lemma registered_handler_runs_once_witness :
  let w := startWorld steadyClock trackerUp commentsUp in
  exists hd' w',
    (on "Issue" noting ;; process issuePayload None)
      (newWebhookHandler {| signingSecret := Some "test-secret" |}, w)
    = (Returned tt, (hd', w')) /\
    logged w' = [(Info, "Processing webhook: Issue.create"); (Debug, "seen Issue")].
Proof.
  intros w.
  destruct (registered_handler_runs_once (Pf := platform)
              {| signingSecret := Some "test-secret" |} w issuePayload None noting)
    as (hd' & R).
  - discriminate.
  - reflexivity.
  - eexists hd', _. split; [exact R | reflexivity].
Defined.

Lemma faults_needs_credentials_witness :
  let w := startWorld steadyClock trackerUp commentsUp in
  (exists m, fst (faults (newLinearClient (Pf := platform) clientOptions, w)) = Returned m) /\
  fst (faults (newLinearClient (Pf := platform) anonymousOptions, w))
  = Threw (newError "Fault manager not configured. Provide faults config and credentials.").
Proof.
  intros w. split.
  - destruct (faults_needs_credentials (Pf := platform) clientOptions w) as [Yes _].
    destruct Yes as (m & R & _).
    + split; [now exists dedupeConfig | left; now exists "lin_api_key"].
    + exists m. now rewrite R.
  - destruct (faults_needs_credentials (Pf := platform) anonymousOptions w) as [_ No].
    rewrite No; [reflexivity |].
    intros [_ [[k K] | [t T]]]; discriminate.
Defined.


Lemma default_webhooks_verify_nothing_witness :
  let w := startWorld steadyClock trackerUp commentsUp in
  exists hd cl',
    webhooks (newLinearClient (Pf := platform) clientOptions, w) = (Returned hd, (cl', w)) /\
    fst (process issuePayload (Some "anything") (hd, w)) = Returned tt.
Proof.
  intros w.
  destruct (default_webhooks_verify_nothing (Pf := platform) clientOptions w issuePayload
              (Some "anything") eq_refl) as (hd & cl' & W & _ & P).
  exists hd, cl'. split; [exact W |]. now rewrite P.
Defined.

Lemma clientCreateIssue_outcomes_witness :
  let cl := newLinearClient (Pf := platform) clientOptions in
  fst (clientCreateIssue someInput (cl, startWorld steadyClock trackerUp commentsUp))
  = Returned testIssue /\
  fst (clientCreateIssue someInput (cl, startWorld steadyClock trackerDown commentsUp))
  = Threw (newError "Network error") /\
  clientCreateIssue someInput
    (newLinearClient (Pf := platform) anonymousOptions,
     startWorld steadyClock trackerUp commentsUp)
  = (Threw (newError "Linear SDK not initialized. Provide apiKey or accessToken."),
     (newLinearClient (Pf := platform) anonymousOptions,
      startWorld steadyClock trackerUp commentsUp)).
Proof.
  intros cl. split; [| split].
  - destruct (clientCreateIssue_outcomes (Pf := platform) cl
                (startWorld steadyClock trackerUp commentsUp) someInput) as [_ With].
    destruct With as (Ok & _); [now eexists |].
    now rewrite (Ok testIssue eq_refl).
  - destruct (clientCreateIssue_outcomes (Pf := platform) cl
                (startWorld steadyClock trackerDown commentsUp) someInput) as [_ With].
    destruct With as (_ & Rej & _); [now eexists |].
    rewrite (Rej (newError "Network error")); [reflexivity | left; reflexivity].
  - destruct (clientCreateIssue_outcomes (Pf := platform)
                (newLinearClient (Pf := platform) anonymousOptions)
                (startWorld steadyClock trackerUp commentsUp) someInput) as [Without _].
    apply Without. reflexivity.
Defined.

Lemma report_touches_own_record_only_witness :
  let s := afterFirst steadyClock commentsUp in
  let run := report colonInStack s in
  generateFaultHash duplicateError <> generateFaultHash colonInStack /\
  faultCache (fst (snd run)) !! generateFaultHash duplicateError = Some firstRecord.
Proof.
  intros s run. split; [discriminate |].
  destruct (report_touches_own_record_only (Pf := platform) (fst s) (snd s) colonInStack
              (fst run) (fst (snd run)) (snd (snd run)) eq_refl) as [_ Frame].
  rewrite (Frame (generateFaultHash duplicateError)); [reflexivity | discriminate].
Defined.

Lemma cache_stays_well_formed_witness :
  CacheWellFormed (fst (afterFirst steadyClock commentsUp)) /\
  hash firstRecord = generateFaultHash duplicateError.
Proof.
  destruct (cache_stays_well_formed (Pf := platform)) as (New & Keep & _).
  assert (WF : CacheWellFormed (fst (afterFirst steadyClock commentsUp))).
  { apply (Keep (newFaultManager dedupeConfig)
             (startWorld steadyClock trackerUp commentsUp) duplicateError
             (fst (report duplicateError (start dedupeConfig steadyClock trackerUp commentsUp)))
             (fst (afterFirst steadyClock commentsUp))
             (snd (afterFirst steadyClock commentsUp))).
    - apply New.
    - reflexivity. }
  split; [exact WF |].
  apply (WF (generateFaultHash duplicateError) firstRecord). reflexivity.
Defined.

Lemma dedup_marks_repeats_witness :
  exists results s',
    reportAll [duplicateError; colonInStack; duplicateErrorAgain; colonInMessage]
      (start dedupeConfig boundedClock trackerUp commentsUp)
    = (Returned results, s') /\
    map isDuplicate results = [false; false; true; true] /\
    length (issueRequests (snd s')) = 2%nat /\
    length (commentRequests (snd s')) = 2%nat.
Proof.
  destruct (dedup_marks_repeats (Pf := platform) (newFaultManager dedupeConfig)
              (startWorld boundedClock trackerUp commentsUp)
              [duplicateError; colonInStack; duplicateErrorAgain; colonInMessage])
    as (results & m' & w' & R & Marks & _ & Li & Lc).
  - reflexivity.
  - intros k record L. cbn in L. rewrite lookup_empty in L. discriminate L.
  - intros i j. cbn. unfold boundedClock. lia.
  - intros n. exists testIssue. reflexivity.
  - exists results, (m', w'). split; [exact R |].
    split; [exact Marks |]. split; [exact Li | exact Lc].
Defined.

Lemma expressErrorHandler_always_500_witness :
  let s := start dedupeConfig steadyClock trackerDown commentsUp in
  exists w',
    expressErrorHandler (Pf := platform) contextOf boom failedRequest s
    = (Returned {| status := 500; json := ErrorBody "Internal server error" |}, (fst s, w')) /\
    logged w'
    = [(Error, "Failed to create fault issue: Error: Network error");
       (Error, "Failed to report error to Linear: Error: Network error")].
Proof.
  intros s.
  destruct (expressErrorHandler_always_500 (Pf := platform) contextOf (fst s) (snd s)
              boom failedRequest) as [_ Fails].
  destruct (Fails (newError "Network error")) as (w' & R & Log).
  - right. reflexivity.
  - apply fails_rejected. reflexivity.
  - exists w'. split; [exact R | exact Log].
Defined.

End MoreWitnesses.
